(** * SOQL value escaping and template composition (niicojs/soql)

    A shallow embedding of the escaper (escape.ts), the wrapper
    constructors and type guards (helpers.ts), and the template tag
    (soql.ts), in both versions the repository carries: the one whose
    wrappers are marked with registry symbols and the one whose wrappers
    are marked with string-keyed fields. *)

From Stdlib Require Import String Ascii ZArith List Bool Lia.
From Stdlib Require Import QArith Qround Qabs.
From Stdlib Require Import DecimalString.
From Stdlib Require Import Floats.SpecFloat.
Import ListNotations.

Set Warnings "-register-all".

Local Open Scope string_scope.
Local Open Scope Z_scope.

(** ** JavaScript strings

    A string is a sequence of code units.  Every regular expression of
    the library matches exactly one code unit below 128, so code units
    are kept as [ascii] and everything else passes through untouched. *)

Definition BACKSLASH : ascii := "092"%char.
Definition QUOTE : ascii := "039"%char.
Definition LF : ascii := "010"%char.
Definition CR : ascii := "013"%char.
Definition TAB : ascii := "009"%char.
Definition NUL : ascii := "000"%char.
Definition PERCENT : ascii := "037"%char.
Definition UNDERSCORE : ascii := "095"%char.

(** The two-unit string written [\\c] inside a JavaScript literal: a
    backslash followed by [c]. *)
Definition esc (c : ascii) : string := String BACKSLASH (String c EmptyString).

(** [s.replace(/c/g, rep)] for a pattern that is one literal code unit
    and a replacement without [$] patterns: every occurrence, scanning
    left to right, the replacement text not being rescanned. *)
Fixpoint replace_g (c : ascii) (rep : string) (s : string) : string :=
  match s with
  | EmptyString => EmptyString
  | String x rest =>
      if Ascii.eqb x c then rep ++ replace_g c rep rest
      else String x (replace_g c rep rest)
  end.

(** [parts.join(sep)] on an array of strings. *)
Fixpoint join_strings (sep : string) (parts : list string) : string :=
  match parts with
  | [] => EmptyString
  | [p] => p
  | p :: rest => p ++ sep ++ join_strings sep rest
  end.

(** [s.padStart(width, fill)] for a one-unit filler. *)
Definition padStart (width : nat) (fill : ascii) (s : string) : string :=
  string_of_list_ascii (repeat fill (width - String.length s)) ++ s.

(** ** escape.ts: string escapers (the same text in both versions) *)

Definition escapeString (val : string) : string :=
  replace_g NUL (esc "0")
    (replace_g TAB (esc "t")
      (replace_g CR (esc "r")
        (replace_g LF (esc "n")
          (replace_g QUOTE (esc QUOTE)
            (replace_g BACKSLASH (esc BACKSLASH) val))))).

Definition escapeLike (val : string) : string :=
  replace_g NUL (esc "0")
    (replace_g TAB (esc "t")
      (replace_g CR (esc "r")
        (replace_g LF (esc "n")
          (replace_g UNDERSCORE (esc UNDERSCORE)
            (replace_g PERCENT (esc PERCENT)
              (replace_g QUOTE (esc QUOTE)
                (replace_g BACKSLASH (esc BACKSLASH) val))))))).

(** ** Reading an escaped fragment

    The substitution steps as an ordered table, the single-pass view of
    the escapers, and the scanners that say what unescaped means. *)

Definition string_steps : list (ascii * string) :=
  [ (BACKSLASH, esc BACKSLASH); (QUOTE, esc QUOTE);
    (LF, esc "n"); (CR, esc "r"); (TAB, esc "t"); (NUL, esc "0") ].

Definition like_steps : list (ascii * string) :=
  [ (BACKSLASH, esc BACKSLASH); (QUOTE, esc QUOTE);
    (PERCENT, esc PERCENT); (UNDERSCORE, esc UNDERSCORE);
    (LF, esc "n"); (CR, esc "r"); (TAB, esc "t"); (NUL, esc "0") ].

Definition run_steps (steps : list (ascii * string)) (s : string) : string :=
  fold_left (fun acc step => replace_g (fst step) (snd step) acc) steps s.

(** What one source code unit becomes under plain string escaping. *)
Definition escape_unit (x : ascii) : string :=
  if Ascii.eqb x BACKSLASH then esc BACKSLASH
  else if Ascii.eqb x QUOTE then esc QUOTE
  else if Ascii.eqb x LF then esc "n"
  else if Ascii.eqb x CR then esc "r"
  else if Ascii.eqb x TAB then esc "t"
  else if Ascii.eqb x NUL then esc "0"
  else String x EmptyString.

(** What one source code unit becomes under LIKE escaping. *)
Definition like_unit (x : ascii) : string :=
  if Ascii.eqb x PERCENT then esc PERCENT
  else if Ascii.eqb x UNDERSCORE then esc UNDERSCORE
  else escape_unit x.

Fixpoint flat_units (f : ascii -> string) (s : string) : string :=
  match s with
  | EmptyString => EmptyString
  | String x rest => f x ++ flat_units f rest
  end.

(** The code units that may follow a backslash in an escaped string. *)
Definition is_escape_code (c : ascii) : bool :=
  Ascii.eqb c BACKSLASH || Ascii.eqb c QUOTE || Ascii.eqb c "n"
  || Ascii.eqb c "r" || Ascii.eqb c "t" || Ascii.eqb c "0".

(** Left-to-right reading of a fragment: a backslash consumes the unit
    after it, which has to be an escape code; a single quote met outside
    such a pair is unescaped. *)
Fixpoint well_escaped (s : string) : bool :=
  match s with
  | EmptyString => true
  | String c rest =>
      if Ascii.eqb c BACKSLASH then
        match rest with
        | EmptyString => false
        | String d rest' => is_escape_code d && well_escaped rest'
        end
      else if Ascii.eqb c QUOTE then false
      else well_escaped rest
  end.

(** Reading the body of a quoted literal after its opening quote: the
    text left after the first unescaped quote, if there is one. *)
Fixpoint after_closing_quote (s : string) : option string :=
  match s with
  | EmptyString => None
  | String c rest =>
      if Ascii.eqb c QUOTE then Some rest
      else if Ascii.eqb c BACKSLASH then
        match rest with
        | EmptyString => None
        | String _ rest' => after_closing_quote rest'
        end
      else after_closing_quote rest
  end.

Fixpoint occurs (c : ascii) (s : string) : bool :=
  match s with
  | EmptyString => false
  | String x rest => Ascii.eqb x c || occurs c rest
  end.

(** ** JavaScript numbers

    A Number is an IEEE 754 binary64 value: [spec_float] with 53 bits of
    precision and maximal exponent 1024.  [S754_finite s m e] stands for
    [(-1)^s * m * 2^e]. *)

Definition Number : Type := spec_float.

Definition prec64 : Z := 53.
Definition emax64 : Z := 1024.

(** The Number written as an integer literal, and the quotient of two
    Numbers (correctly rounded, as [/] is). *)
Definition Number_of_Z (z : Z) : Number := binary_normalize prec64 emax64 z 0 false.
Definition Number_div (x y : Number) : Number := SFdiv prec64 emax64 x y.

(** [Number.isFinite(val)] on a value that is a Number. *)
Definition Number_isFinite (n : Number) : bool :=
  match n with
  | S754_zero _ | S754_finite _ _ _ => true
  | S754_infinity _ | S754_nan => false
  end.

(** Decimal digits of an integer, as [String] gives them for an
    integral Number below 10^21. *)
Definition decimal (z : Z) : string := NilZero.string_of_int (Z.to_int z).

Definition pow10 (p : Z) : Q := Qpower (10 # 1) p.
Definition pow2 (p : Z) : Q := Qpower (2 # 1) p.

Definition float_value (m : positive) (e : Z) : Q := (inject_Z (Zpos m) * pow2 e)%Q.

Definition Qltb (x y : Q) : bool := negb (Qle_bool y x).

(** The reals that round to the double [m * 2^e] under round to nearest,
    ties to even: those between the midpoints to its two neighbours, the
    midpoints included when [m] is even.  The lower neighbour is half as
    far when [m] is the least mantissa of its binade. *)
Definition rounds_to (m : positive) (e : Z) (x : Q) : bool :=
  let v := float_value m e in
  let up := pow2 (e - 1) in
  let down :=
    if Pos.eqb m (2 ^ 52) && (-1074 <? e) then pow2 (e - 2) else pow2 (e - 1) in
  if Z.even (Zpos m)
  then Qle_bool (v - down)%Q x && Qle_bool x (v + up)%Q
  else Qltb (v - down)%Q x && Qltb x (v + up)%Q.

(** The least [n], from [n] on, with [v < 10^n]. *)
Fixpoint first_decade (fuel : nat) (n : Z) (v : Q) : Z :=
  match fuel with
  | O => n
  | S fuel' => if Qltb v (pow10 n) then n else first_decade fuel' (n + 1) v
  end.

(** The [k]-digit integers [s] for which [s * 10^(n-k)] rounds to the
    double, among the two integers around [v / 10^(n-k)]. *)
Definition digit_candidates (m : positive) (e : Z) (k n : Z) : list (Z * Z) :=
  let v := float_value m e in
  let lo := Qfloor (v / pow10 (n - k))%Q in
  filter
    (fun ns =>
       let s := snd ns in
       (10 ^ (k - 1) <=? s) && (s <? 10 ^ k)
       && rounds_to m e (inject_Z s * pow10 (n - k))%Q)
    [ (n, lo); (n, lo + 1) ].

Definition distance (m : positive) (e : Z) (k : Z) (ns : Z * Z) : Q :=
  Qabs (inject_Z (snd ns) * pow10 (fst ns - k) - float_value m e)%Q.

(** The candidate closest to the double; an even [s] wins a tie. *)
Fixpoint closest (m : positive) (e : Z) (k : Z) (best : Z * Z) (cs : list (Z * Z))
  : Z * Z :=
  match cs with
  | [] => best
  | c :: rest =>
      let db := distance m e k best in
      let dc := distance m e k c in
      if Qltb dc db || (Qeq_bool dc db && Z.even (snd c))
      then closest m e k c rest
      else closest m e k best rest
  end.

(** Search for the least digit count [k], from [k] on, that has a
    candidate: the result is [(n, s)]. *)
Fixpoint shortest_from (fuel : nat) (m : positive) (e : Z) (n0 : Z) (k : Z)
  : Z * Z :=
  match fuel with
  | O => (n0, Qfloor (float_value m e / pow10 (n0 - k))%Q)
  | S fuel' =>
      match (digit_candidates m e k n0 ++ digit_candidates m e k (n0 + 1))%list with
      | [] => shortest_from fuel' m e n0 (k + 1)
      | c :: rest => closest m e k c rest
      end
  end.

(** The integers [n] and [s] of Number::toString: [s] has as few digits
    as possible, and [s * 10^(n-k)] rounds to the double. *)
Definition shortest_digits (m : positive) (e : Z) : Z * Z :=
  shortest_from 17 m e (first_decade 700 (-340) (float_value m e)) 1.

Definition zeros (n : Z) : string := string_of_list_ascii (repeat "0"%char (Z.to_nat n)).

(** The text of a positive finite Number with digits [ds] and decimal
    exponent [n] (Number::toString, radix 10, steps 6 to 10). *)
Definition render_digits (ds : string) (n : Z) : string :=
  let k := Z.of_nat (String.length ds) in
  if (k <=? n) && (n <=? 21) then ds ++ zeros (n - k)
  else if (0 <? n) && (n <=? 21) then
    substring 0 (Z.to_nat n) ds ++ "." ++ substring (Z.to_nat n) (Z.to_nat (k - n)) ds
  else if (-6 <? n) && (n <=? 0) then "0." ++ zeros (- n) ++ ds
  else
    let x := n - 1 in
    let sign := if x <? 0 then "-" else "+" in
    if k =? 1 then ds ++ "e" ++ sign ++ decimal (Z.abs x)
    else substring 0 1 ds ++ "." ++ substring 1 (Z.to_nat (k - 1)) ds
         ++ "e" ++ sign ++ decimal (Z.abs x).

(** [String(val)] on a Number. *)
Definition Number_toString (x : Number) : string :=
  match x with
  | S754_nan => "NaN"
  | S754_zero _ => "0"
  | S754_infinity false => "Infinity"
  | S754_infinity true => "-Infinity"
  | S754_finite s m e =>
      let ns := shortest_digits m e in
      (if s then "-" else "") ++ render_digits (decimal (snd ns)) (fst ns)
  end.

(** ** Exceptions

    A call either returns, or throws an exception object, or was handed
    a wrapper whose [value] payload is not of the type its TypeScript
    interface declares; the last case lies outside the typed signature
    of the escaper and is reported as [IllTyped]. *)

Inductive JsError : Type :=
| Error (message : string)
| RangeError (message : string).

Definition error_message (e : JsError) : string :=
  match e with
  | Error message => message
  | RangeError message => message
  end.

Inductive Outcome (A : Type) : Type :=
| Return (a : A)
| Throw (e : JsError)
| IllTyped.

Arguments Return {A} a.
Arguments Throw {A} e.
Arguments IllTyped {A}.

Definition bind {A B : Type} (c : Outcome A) (k : A -> Outcome B) : Outcome B :=
  match c with
  | Return a => k a
  | Throw e => Throw e
  | IllTyped => IllTyped
  end.

Declare Scope outcome_scope.
Delimit Scope outcome_scope with outcome.
Notation "x <- c ;; k" := (bind c (fun x => k))
  (at level 61, c at next level, right associativity) : outcome_scope.
Local Open Scope outcome_scope.

(** [arr.map(f)] for a callback that may throw: elements are visited
    from the left and the first exception ends the call. *)
Definition map_outcome {A B : Type} (f : A -> Outcome B) : list A -> Outcome (list B) :=
  fix go (items : list A) : Outcome (list B) :=
    match items with
    | [] => Return []
    | item :: rest => b <- f item ;; bs <- go rest ;; Return (b :: bs)
    end.

(** ** JavaScript dates

    The time value of a Date: milliseconds since the epoch, or NaN
    ([None]) for an invalid Date.  The calendar functions are those of
    ECMAScript (Day, YearFromTime, MonthFromTime, DateFromTime, ...). *)

Definition TimeValue : Type := option Z.

Definition msPerSecond : Z := 1000.
Definition msPerMinute : Z := 60000.
Definition msPerHour : Z := 3600000.
Definition msPerDay : Z := 86400000.

Definition Day (t : Z) : Z := t / msPerDay.

Definition DaysInYear (y : Z) : Z :=
  if negb (y mod 4 =? 0) then 365
  else if negb (y mod 100 =? 0) then 366
  else if negb (y mod 400 =? 0) then 365
  else 366.

Definition DayFromYear (y : Z) : Z :=
  365 * (y - 1970) + (y - 1969) / 4 - (y - 1901) / 100 + (y - 1601) / 400.

(** The largest year whose first day is not after the day of [t]: the
    estimate from the mean year length is off by at most one. *)
Definition YearFromTime (t : Z) : Z :=
  let d := Day t in
  let y := 1970 + (d * 400) / 146097 in
  if DayFromYear (y + 1) <=? d then y + 1
  else if DayFromYear y <=? d then y
  else y - 1.

Definition DayWithinYear (t : Z) : Z := Day t - DayFromYear (YearFromTime t).

Definition InLeapYear (t : Z) : Z :=
  if DaysInYear (YearFromTime t) =? 366 then 1 else 0.

Definition MonthFromTime (t : Z) : Z :=
  let d := DayWithinYear t in
  let l := InLeapYear t in
  if d <? 31 then 0
  else if d <? 59 + l then 1
  else if d <? 90 + l then 2
  else if d <? 120 + l then 3
  else if d <? 151 + l then 4
  else if d <? 181 + l then 5
  else if d <? 212 + l then 6
  else if d <? 243 + l then 7
  else if d <? 273 + l then 8
  else if d <? 304 + l then 9
  else if d <? 334 + l then 10
  else 11.

Definition DateFromTime (t : Z) : Z :=
  let d := DayWithinYear t in
  let l := InLeapYear t in
  match MonthFromTime t with
  | 0 => d + 1
  | 1 => d - 30
  | 2 => d - 58 - l
  | 3 => d - 89 - l
  | 4 => d - 119 - l
  | 5 => d - 150 - l
  | 6 => d - 180 - l
  | 7 => d - 211 - l
  | 8 => d - 242 - l
  | 9 => d - 272 - l
  | 10 => d - 303 - l
  | _ => d - 333 - l
  end.

Definition HourFromTime (t : Z) : Z := (t / msPerHour) mod 24.
Definition MinFromTime (t : Z) : Z := (t / msPerMinute) mod 60.
Definition SecFromTime (t : Z) : Z := (t / msPerSecond) mod 60.
Definition msFromTime (t : Z) : Z := t mod msPerSecond.

(** The getters of a Date return an integral Number, or NaN ([None]). *)
Definition getTime (date : TimeValue) : option Z := date.
Definition getUTCFullYear (date : TimeValue) : option Z := option_map YearFromTime date.
Definition getUTCMonth (date : TimeValue) : option Z := option_map MonthFromTime date.
Definition getUTCDate (date : TimeValue) : option Z := option_map DateFromTime date.

(** [isNaN(x)] and [String(x)] on the result of a getter. *)
Definition isNaN (x : option Z) : bool :=
  match x with Some _ => false | None => true end.

Definition String_of_integral (x : option Z) : string :=
  match x with Some z => decimal z | None => "NaN" end.

Definition digit_unit (n : Z) : ascii := ascii_of_nat (48 + Z.to_nat (n mod 10)).

(** [n] as exactly [width] decimal digits (the low ones). *)
Fixpoint fixed_digits (width : nat) (n : Z) : string :=
  match width with
  | O => EmptyString
  | S w => fixed_digits w (n / 10) ++ String (digit_unit n) EmptyString
  end.

(** The year of [Date.prototype.toISOString]: four digits from 0 to
    9999, otherwise a sign and six digits. *)
Definition iso_year (y : Z) : string :=
  if (0 <=? y) && (y <=? 9999) then fixed_digits 4 y
  else (if y <? 0 then "-" else "+") ++ fixed_digits 6 (Z.abs y).

(** [date.toISOString()]. *)
Definition toISOString (date : TimeValue) : Outcome string :=
  match date with
  | None => Throw (RangeError "Invalid time value")
  | Some t =>
      Return (iso_year (YearFromTime t)
              ++ "-" ++ fixed_digits 2 (MonthFromTime t + 1)
              ++ "-" ++ fixed_digits 2 (DateFromTime t)
              ++ "T" ++ fixed_digits 2 (HourFromTime t)
              ++ ":" ++ fixed_digits 2 (MinFromTime t)
              ++ ":" ++ fixed_digits 2 (SecFromTime t)
              ++ "." ++ fixed_digits 3 (msFromTime t)
              ++ "Z")
  end.

Definition is_digit (c : ascii) : bool :=
  let n := nat_of_ascii c in (48 <=? n)%nat && (n <=? 57)%nat.

(** The regular expression [\d{3}Z$] tried at the start of [s]. *)
Definition three_digits_Z_end (s : string) : bool :=
  match s with
  | String d1 (String d2 (String d3 (String z EmptyString))) =>
      is_digit d1 && is_digit d2 && is_digit d3 && Ascii.eqb z "Z"
  | _ => false
  end.

(** [s.replace(/\.\d{3}Z$/, 'Z')]: the first place where a dot, three
    digits and a final Z match is replaced by Z. *)
Fixpoint replace_millis (s : string) : string :=
  match s with
  | EmptyString => EmptyString
  | String c rest =>
      if Ascii.eqb c "." && three_digits_Z_end rest then "Z"
      else String c (replace_millis rest)
  end.

(** ** escape.ts: date formatters (the same text in both versions) *)

Definition formatDate (date : TimeValue) : string :=
  let year := getUTCFullYear date in
  let month :=
    padStart 2 "0" (String_of_integral (option_map (fun m => m + 1) (getUTCMonth date))) in
  let day := padStart 2 "0" (String_of_integral (getUTCDate date)) in
  String_of_integral year ++ "-" ++ month ++ "-" ++ day.

Definition formatDateTime (date : TimeValue) : Outcome string :=
  iso <- toISOString date ;;
  Return (replace_millis iso).

(** ** JavaScript values

    The values a caller can hand to the escaper through the loosely
    typed boundary, bigints, symbols and functions included.  An object
    is its list of own properties; a key is a string or a symbol of the
    global registry ([Symbol.for(key)]). *)

Inductive PropKey : Type :=
| StringKey (name : string)
| SymbolFor (key : string).

Inductive JsValue : Type :=
| VUndefined
| VNull
| VBoolean (b : bool)
| VNumber (n : Number)
| VString (s : string)
| VDate (t : TimeValue)
| VArray (items : list JsValue)
| VObject (props : list (PropKey * JsValue))
| VBigInt (z : Z)
| VSymbol (description : string)
| VFunction.

Definition PropKey_eqb (a b : PropKey) : bool :=
  match a, b with
  | StringKey x, StringKey y => String.eqb x y
  | SymbolFor x, SymbolFor y => String.eqb x y
  | _, _ => false
  end.

(** [typeof val]. *)
Definition typeof (val : JsValue) : string :=
  match val with
  | VUndefined => "undefined"
  | VBoolean _ => "boolean"
  | VNumber _ => "number"
  | VString _ => "string"
  | VNull | VDate _ | VArray _ | VObject _ => "object"
  | VBigInt _ => "bigint"
  | VSymbol _ => "symbol"
  | VFunction => "function"
  end.

Definition is_null (val : JsValue) : bool :=
  match val with VNull => true | _ => false end.

Definition is_undefined (val : JsValue) : bool :=
  match val with VUndefined => true | _ => false end.

(** [key in val], for the marker keys: arrays and dates carry none. *)
Definition has_property (key : PropKey) (val : JsValue) : bool :=
  match val with
  | VObject props => existsb (fun kv => PropKey_eqb (fst kv) key) props
  | _ => false
  end.

(** [val[key]]. *)
Definition get_property (key : PropKey) (val : JsValue) : JsValue :=
  match val with
  | VObject props =>
      match find (fun kv => PropKey_eqb (fst kv) key) props with
      | Some kv => snd kv
      | None => VUndefined
      end
  | _ => VUndefined
  end.

(** [x === true]. *)
Definition is_true (x : JsValue) : bool :=
  match x with VBoolean true => true | _ => false end.

(** Reading [val.value] at the type the wrapper interface declares. *)
Definition value_as_string (val : JsValue) : Outcome string :=
  match get_property (StringKey "value") val with
  | VString s => Return s
  | _ => IllTyped
  end.

Definition value_as_Date (val : JsValue) : Outcome TimeValue :=
  match get_property (StringKey "value") val with
  | VDate t => Return t
  | _ => IllTyped
  end.

(** A template literal [`'${escaped}'`] or the bare text. *)
Definition quoted_if (wrapStrings : bool) (escaped : string) : string :=
  if wrapStrings then "'" ++ escaped ++ "'" else escaped.

(** ** types.ts: the date literal vocabulary

    The keywords of type [DateLiteral], and the prefixes of its
    parameterised members, each followed by a colon and a number. *)

Definition DateLiteral_keywords : list string :=
  [ "YESTERDAY"; "TODAY"; "TOMORROW"; "LAST_WEEK"; "THIS_WEEK"; "NEXT_WEEK";
    "LAST_MONTH"; "THIS_MONTH"; "NEXT_MONTH"; "LAST_90_DAYS"; "NEXT_90_DAYS";
    "THIS_QUARTER"; "LAST_QUARTER"; "NEXT_QUARTER"; "THIS_YEAR"; "LAST_YEAR";
    "NEXT_YEAR"; "THIS_FISCAL_QUARTER"; "LAST_FISCAL_QUARTER";
    "NEXT_FISCAL_QUARTER"; "THIS_FISCAL_YEAR"; "LAST_FISCAL_YEAR";
    "NEXT_FISCAL_YEAR" ].

Definition DateLiteral_prefixes : list string :=
  [ "LAST_N_DAYS:"; "NEXT_N_DAYS:"; "LAST_N_WEEKS:"; "NEXT_N_WEEKS:";
    "LAST_N_MONTHS:"; "NEXT_N_MONTHS:"; "LAST_N_QUARTERS:"; "NEXT_N_QUARTERS:";
    "LAST_N_YEARS:"; "NEXT_N_YEARS:"; "LAST_N_FISCAL_QUARTERS:";
    "NEXT_N_FISCAL_QUARTERS:"; "LAST_N_FISCAL_YEARS:"; "NEXT_N_FISCAL_YEARS:" ].

(** Whether a string could belong to [DateLiteral] at all: a keyword, or
    text that starts with one of the parameterised prefixes. *)
Definition may_be_DateLiteral (s : string) : bool :=
  existsb (String.eqb s) DateLiteral_keywords
  || existsb (fun p => prefix p s) DateLiteral_prefixes.

(** ** types.ts (field version): the declared union [SoqlValue]

    The kinds both versions of the library declare, before a wrapper is
    given the marker of one version or the other. *)

Inductive SoqlValue : Type :=
| SvString (s : string)
| SvNumber (n : Number)
| SvBoolean (b : bool)
| SvDate (t : TimeValue)
| SvNull
| SvUndefined
| SvRaw (value : string)
| SvLike (value : string)
| SvArray (items : list SoqlValue).

(** An array of length zero at some depth. *)
Fixpoint has_empty_array (v : SoqlValue) : bool :=
  match v with
  | SvArray items =>
      match items with
      | [] => true
      | _ => existsb has_empty_array items
      end
  | _ => false
  end.

(** ** escape.ts: the array escaper, over the value escaper it calls *)

Definition empty_array_message : string :=
  "Empty arrays are not allowed in SOQL IN clauses. Use a conditional to skip the query or provide at least one value.".

Section ArrayEscapers.

Variable escapeValue : JsValue -> bool -> Outcome string.

(** The version that rejects the empty array. *)
Definition escapeArray_throwing (arr : list JsValue) : Outcome string :=
  if (List.length arr =? 0)%nat then Throw (Error empty_array_message)
  else
    escaped <- map_outcome (fun item => escapeValue item true) arr ;;
    Return ("(" ++ join_strings ", " escaped ++ ")").

(** The version that answers the empty array with a placeholder. *)
Definition escapeArray_placeholder (arr : list JsValue) : Outcome string :=
  if (List.length arr =? 0)%nat then Return "(null)"
  else
    escaped <- map_outcome (fun item => escapeValue item true) arr ;;
    Return ("(" ++ join_strings ", " escaped ++ ")").

End ArrayEscapers.

(** ** The version with symbol markers (types.ts, helpers.ts, escape.ts) *)

Module SymbolVariant.

Definition RAW_SYMBOL : PropKey := SymbolFor "@niicojs/soql:raw".
Definition LIKE_SYMBOL : PropKey := SymbolFor "@niicojs/soql:like".
Definition DATE_SYMBOL : PropKey := SymbolFor "@niicojs/soql:date".

Definition raw (value : string) : JsValue :=
  VObject [ (RAW_SYMBOL, VBoolean true); (StringKey "value", VString value) ].

Definition like (value : string) : JsValue :=
  VObject [ (LIKE_SYMBOL, VBoolean true); (StringKey "value", VString value) ].

Definition date (value : TimeValue) : Outcome JsValue :=
  if isNaN (getTime value) then Throw (Error "Invalid Date object")
  else Return (VObject [ (DATE_SYMBOL, VBoolean true); (StringKey "value", VDate value) ]).

Definition literal (value : string) : JsValue := raw value.

Definition isRawValue (val : JsValue) : bool :=
  String.eqb (typeof val) "object" && negb (is_null val)
  && has_property RAW_SYMBOL val && is_true (get_property RAW_SYMBOL val).

Definition isLikeValue (val : JsValue) : bool :=
  String.eqb (typeof val) "object" && negb (is_null val)
  && has_property LIKE_SYMBOL val && is_true (get_property LIKE_SYMBOL val).

Definition isDateValue (val : JsValue) : bool :=
  String.eqb (typeof val) "object" && negb (is_null val)
  && has_property DATE_SYMBOL val && is_true (get_property DATE_SYMBOL val).

Fixpoint escapeValue (val : JsValue) (wrapStrings : bool) {struct val}
  : Outcome string :=
  if is_null val || is_undefined val then Return "null"
  else if isRawValue val then value_as_string val
  else if isLikeValue val then
    value <- value_as_string val ;;
    Return (quoted_if wrapStrings (escapeLike value))
  else if isDateValue val then
    value <- value_as_Date val ;;
    Return (formatDate value)
  else
    match val with
    | VArray arr => escapeArray_throwing escapeValue arr
    | VBoolean b => Return (if b then "true" else "false")
    | VNumber n =>
        if negb (Number_isFinite n)
        then Throw (Error ("Invalid SOQL number value: " ++ Number_toString n))
        else Return (Number_toString n)
    | VDate t =>
        if isNaN (getTime t) then Throw (Error "Invalid Date object")
        else formatDateTime t
    | VString s => Return (quoted_if wrapStrings (escapeString s))
    | _ => Throw (Error ("Unsupported SOQL value type: " ++ typeof val))
    end.

Definition escapeArray (arr : list JsValue) : Outcome string :=
  escapeArray_throwing escapeValue arr.

Definition join (values : list JsValue) (separator : string) : Outcome JsValue :=
  escaped <- map_outcome (fun v => escapeValue v true) values ;;
  Return (raw (join_strings separator escaped)).

Fixpoint inject (v : SoqlValue) : JsValue :=
  match v with
  | SvString s => VString s
  | SvNumber n => VNumber n
  | SvBoolean b => VBoolean b
  | SvDate t => VDate t
  | SvNull => VNull
  | SvUndefined => VUndefined
  | SvRaw value => raw value
  | SvLike value => like value
  | SvArray items => VArray (map inject items)
  end.

End SymbolVariant.

(** ** The version with field markers (types.ts, helpers.ts, escape.ts) *)

Module FieldVariant.

Definition raw (value : string) : JsValue :=
  VObject [ (StringKey "__raw", VBoolean true); (StringKey "value", VString value) ].

Definition like (value : string) : JsValue :=
  VObject [ (StringKey "__like", VBoolean true); (StringKey "value", VString value) ].

Definition isRawValue (val : JsValue) : bool :=
  String.eqb (typeof val) "object" && negb (is_null val)
  && has_property (StringKey "__raw") val
  && is_true (get_property (StringKey "__raw") val).

Definition isLikeValue (val : JsValue) : bool :=
  String.eqb (typeof val) "object" && negb (is_null val)
  && has_property (StringKey "__like") val
  && is_true (get_property (StringKey "__like") val).

Fixpoint escapeValue (val : JsValue) (wrapStrings : bool) {struct val}
  : Outcome string :=
  if is_null val || is_undefined val then Return "null"
  else if isRawValue val then value_as_string val
  else if isLikeValue val then
    value <- value_as_string val ;;
    Return (quoted_if wrapStrings (escapeLike value))
  else
    match val with
    | VArray arr => escapeArray_placeholder escapeValue arr
    | VBoolean b => Return (if b then "true" else "false")
    | VNumber n =>
        if negb (Number_isFinite n)
        then Throw (Error ("Invalid SOQL number value: " ++ Number_toString n))
        else Return (Number_toString n)
    | VDate t =>
        if isNaN (getTime t) then Throw (Error "Invalid Date object")
        else formatDateTime t
    | VString s => Return (quoted_if wrapStrings (escapeString s))
    | _ => Throw (Error ("Unsupported SOQL value type: " ++ typeof val))
    end.

Definition escapeArray (arr : list JsValue) : Outcome string :=
  escapeArray_placeholder escapeValue arr.

Fixpoint inject (v : SoqlValue) : JsValue :=
  match v with
  | SvString s => VString s
  | SvNumber n => VNumber n
  | SvBoolean b => VBoolean b
  | SvDate t => VDate t
  | SvNull => VNull
  | SvUndefined => VUndefined
  | SvRaw value => raw value
  | SvLike value => like value
  | SvArray items => VArray (map inject items)
  end.

End FieldVariant.

(** ** soql.ts: the template tag, over the [escapeValue] it imports *)

Section TemplateTag.

Variable escapeValue : JsValue -> bool -> Outcome string.

(** One turn of the loop body at index [i]. *)
Definition soql_step (strings : list string) (values : list JsValue)
    (result : string) (i : nat) : Outcome string :=
  let result := result ++ nth i strings "" in
  if (i <? List.length values)%nat then
    escaped <- escapeValue (nth i values VUndefined) true ;;
    Return (result ++ escaped)
  else Return result.

(** One turn of the loop, when the turns before it may have thrown. *)
Definition soql_turn (strings : list string) (values : list JsValue)
    (acc : Outcome string) (i : nat) : Outcome string :=
  result <- acc ;; soql_step strings values result i.

Definition soql (strings : list string) (values : list JsValue) : Outcome string :=
  fold_left (soql_turn strings values) (seq 0 (List.length strings)) (Return "").

(** The contract in the words of the specification:
    [segments[0] + escape(values[0]) + segments[1] + ... + segments[n]],
    every value escaped with default quoting, a failure ending the
    composition. *)
Fixpoint interleave (first : string) (values : list JsValue) (rest : list string)
  : Outcome string :=
  match values, rest with
  | v :: values', s :: rest' =>
      escaped <- escapeValue v true ;;
      tail <- interleave s values' rest' ;;
      Return (first ++ escaped ++ tail)
  | _, _ => Return first
  end.

End TemplateTag.

(** ** Vocabulary of the statements *)

(** The marker keys of each version. *)
Definition symbol_markers : list PropKey :=
  [ SymbolVariant.RAW_SYMBOL; SymbolVariant.LIKE_SYMBOL; SymbolVariant.DATE_SYMBOL ].

Definition field_markers : list PropKey :=
  [ StringKey "__raw"; StringKey "__like" ].

(** A value carries a marker when one of the keys is among its
    properties. *)
Definition carries_marker (markers : list PropKey) (val : JsValue) : bool :=
  existsb (fun key => has_property key val) markers.

Definition is_string_key (key : PropKey) : bool :=
  match key with StringKey _ => true | SymbolFor _ => false end.

(** An array of length zero at some depth of a JavaScript value. *)
Fixpoint contains_empty_array (val : JsValue) : bool :=
  match val with
  | VArray items =>
      match items with
      | [] => true
      | _ => existsb contains_empty_array items
      end
  | _ => false
  end.

(** A date-only wrapper at some depth of a JavaScript value. *)
Fixpoint contains_date_wrapper (val : JsValue) : bool :=
  match val with
  | VArray items => existsb contains_date_wrapper items
  | _ => SymbolVariant.isDateValue val
  end.

(** A Raw or Like wrapper at some depth of a declared value. *)
Fixpoint has_wrapper (v : SoqlValue) : bool :=
  match v with
  | SvRaw _ | SvLike _ => true
  | SvArray items => existsb has_wrapper items
  | _ => false
  end.

Fixpoint all_units (p : ascii -> bool) (s : string) : bool :=
  match s with
  | EmptyString => true
  | String c rest => p c && all_units p rest
  end.

(** The code units of a bare numeric token: digits, the decimal point,
    the exponent mark and the two signs. *)
Definition number_unit (c : ascii) : bool :=
  is_digit c || Ascii.eqb c "." || Ascii.eqb c "e"
  || Ascii.eqb c "+" || Ascii.eqb c "-".

(** ** Vocabulary of the further statements *)

(** The unit a backslash pair stands for. *)
Definition unescape_code (d : ascii) : ascii :=
  if Ascii.eqb d "n" then LF
  else if Ascii.eqb d "r" then CR
  else if Ascii.eqb d "t" then TAB
  else if Ascii.eqb d "0" then NUL
  else d.

(** Reading escaped text back: every backslash pair becomes the unit it
    stands for, every other unit stays. *)
Fixpoint unescape (s : string) : string :=
  match s with
  | EmptyString => EmptyString
  | String c rest =>
      if Ascii.eqb c BACKSLASH then
        match rest with
        | EmptyString => EmptyString
        | String d rest' => String (unescape_code d) (unescape rest')
        end
      else String c (unescape rest)
  end.

(** The six units [escapeString] rewrites. *)
Definition needs_escape (c : ascii) : bool :=
  Ascii.eqb c BACKSLASH || Ascii.eqb c QUOTE || Ascii.eqb c LF
  || Ascii.eqb c CR || Ascii.eqb c TAB || Ascii.eqb c NUL.

Fixpoint any_unit (p : ascii -> bool) (s : string) : bool :=
  match s with
  | EmptyString => false
  | String c rest => p c || any_unit p rest
  end.

(** Left-to-right reading of a LIKE fragment: a backslash consumes the
    unit after it; a quote, a percent sign or an underscore met outside
    such a pair is unescaped. *)
Fixpoint like_well_escaped (s : string) : bool :=
  match s with
  | EmptyString => true
  | String c rest =>
      if Ascii.eqb c BACKSLASH then
        match rest with
        | EmptyString => false
        | String d rest' =>
            (is_escape_code d || Ascii.eqb d PERCENT || Ascii.eqb d UNDERSCORE)
            && like_well_escaped rest'
        end
      else if Ascii.eqb c QUOTE || Ascii.eqb c PERCENT || Ascii.eqb c UNDERSCORE
      then false
      else like_well_escaped rest
  end.

(** Segments and values woven together whatever the two lengths: a
    value follows its segment while both last, and the segments left
    over are appended as they are. *)
Fixpoint weave (escapeValue : JsValue -> bool -> Outcome string)
    (strings : list string) (values : list JsValue) : Outcome string :=
  match strings with
  | [] => Return ""
  | s :: strings' =>
      match values with
      | [] => Return (s ++ join_strings "" strings')
      | v :: values' =>
          escaped <- escapeValue v true ;;
          tail <- weave escapeValue strings' values' ;;
          Return (s ++ escaped ++ tail)
      end
  end.

(** The declared values the escaper accepts: every number finite, every
    Date valid, and, when [reject_empty] is set, no array empty. *)
Fixpoint escapable (reject_empty : bool) (v : SoqlValue) : bool :=
  match v with
  | SvNumber n => Number_isFinite n
  | SvDate t => negb (isNaN (getTime t))
  | SvArray items =>
      negb (reject_empty && (List.length items =? 0)%nat)
      && forallb (escapable reject_empty) items
  | _ => true
  end.

(** The exceptions the escaper throws by itself. *)
Definition is_escaper_error (e : JsError) : bool :=
  match e with
  | Error message =>
      String.eqb message empty_array_message
      || String.eqb message "Invalid Date object"
      || prefix "Invalid SOQL number value: " message
      || existsb
           (fun kind => String.eqb message ("Unsupported SOQL value type: " ++ kind))
           [ "object"; "bigint"; "symbol"; "function" ]
  | RangeError _ => false
  end.

(** Reading a piece of query text for its string literals: outside a
    literal a quote opens one; inside, a backslash consumes the unit
    after it and a quote closes the literal.  The result is whether the
    reading ends inside a literal, or nothing when the text ends on a
    dangling backslash. *)
Fixpoint scan_literals (inside : bool) (s : string) : option bool :=
  match s with
  | EmptyString => Some inside
  | String c rest =>
      if inside then
        if Ascii.eqb c BACKSLASH then
          match rest with
          | EmptyString => None
          | String _ rest' => scan_literals true rest'
          end
        else if Ascii.eqb c QUOTE then scan_literals false rest
        else scan_literals true rest
      else if Ascii.eqb c QUOTE then scan_literals true rest
      else scan_literals false rest
  end.

(** A Raw wrapper at some depth of a declared value. *)
Fixpoint has_raw (v : SoqlValue) : bool :=
  match v with
  | SvRaw _ => true
  | SvArray items => existsb has_raw items
  | _ => false
  end.

(** ** types.ts (symbol version): the declared union [SoqlValue]

    The union of the version with symbol markers, which also has the
    date-only wrapper; its payload is any Date, valid or not. *)

Inductive SymbolSoqlValue : Type :=
| SsString (s : string)
| SsNumber (n : Number)
| SsBoolean (b : bool)
| SsDate (t : TimeValue)
| SsNull
| SsUndefined
| SsRaw (value : string)
| SsLike (value : string)
| SsDateOnly (value : TimeValue)
| SsArray (items : list SymbolSoqlValue).

(** The JavaScript value of a member of that union. *)
Fixpoint inject_symbol_union (v : SymbolSoqlValue) : JsValue :=
  match v with
  | SsString s => VString s
  | SsNumber n => VNumber n
  | SsBoolean b => VBoolean b
  | SsDate t => VDate t
  | SsNull => VNull
  | SsUndefined => VUndefined
  | SsRaw value => SymbolVariant.raw value
  | SsLike value => SymbolVariant.like value
  | SsDateOnly value =>
      VObject [ (SymbolVariant.DATE_SYMBOL, VBoolean true);
                (StringKey "value", VDate value) ]
  | SsArray items => VArray (map inject_symbol_union items)
  end.

(** The members of that union the escaper accepts: every number finite,
    every bare Date valid, no array empty; a date-only wrapper is
    accepted whatever Date it holds. *)
Fixpoint escapable_symbol_union (v : SymbolSoqlValue) : bool :=
  match v with
  | SsNumber n => Number_isFinite n
  | SsDate t => negb (isNaN (getTime t))
  | SsArray items =>
      negb (List.length items =? 0)%nat && forallb escapable_symbol_union items
  | _ => true
  end.

(** Whether [val.value] is a string, or a Date. *)
Definition holds_string (val : JsValue) : bool :=
  match get_property (StringKey "value") val with VString _ => true | _ => false end.

Definition holds_Date (val : JsValue) : bool :=
  match get_property (StringKey "value") val with VDate _ => true | _ => false end.

(** Every wrapper in the value, at any depth of arrays, holds a payload
    of the type its interface declares (for each version, the wrappers
    that version recognises). *)
Fixpoint symbol_payloads_typed (val : JsValue) : bool :=
  match val with
  | VArray items => forallb symbol_payloads_typed items
  | VObject _ =>
      if SymbolVariant.isRawValue val then holds_string val
      else if SymbolVariant.isLikeValue val then holds_string val
      else if SymbolVariant.isDateValue val then holds_Date val
      else true
  | _ => true
  end.

Fixpoint field_payloads_typed (val : JsValue) : bool :=
  match val with
  | VArray items => forallb field_payloads_typed items
  | VObject _ =>
      if FieldVariant.isRawValue val then holds_string val
      else if FieldVariant.isLikeValue val then holds_string val
      else true
  | _ => true
  end.

(** A call that returned a text or threw one of the escaper's own
    errors. *)
Definition text_or_escaper_error (o : Outcome string) : Prop :=
  match o with
  | Return _ => True
  | Throw e => is_escaper_error e = true
  | IllTyped => False
  end.

(** ** Facts about global replacement *)

Lemma append_assoc (a b c : string) : (a ++ b) ++ c = a ++ (b ++ c).
Proof. induction a as [|x a IH]; simpl; [reflexivity | now rewrite IH]. Qed.

Lemma append_nil_r (a : string) : a ++ "" = a.
Proof. induction a as [|x a IH]; simpl; [reflexivity | now rewrite IH]. Qed.

Lemma replace_g_app c rep a b :
  replace_g c rep (a ++ b) = replace_g c rep a ++ replace_g c rep b.
Proof.
  induction a as [|x a IH]; simpl; [reflexivity|].
  destruct (Ascii.eqb x c); simpl; rewrite IH; [|reflexivity].
  now rewrite append_assoc.
Qed.

Lemma replace_g_cons c rep x s :
  replace_g c rep (String x s) = replace_g c rep (String x "") ++ replace_g c rep s.
Proof. exact (replace_g_app c rep (String x "") s). Qed.

Lemma escapeString_cons x s :
  escapeString (String x s) = escapeString (String x "") ++ escapeString s.
Proof.
  unfold escapeString.
  rewrite (replace_g_cons BACKSLASH).
  repeat rewrite replace_g_app. reflexivity.
Qed.

Lemma escapeLike_cons x s :
  escapeLike (String x s) = escapeLike (String x "") ++ escapeLike s.
Proof.
  unfold escapeLike.
  rewrite (replace_g_cons BACKSLASH).
  repeat rewrite replace_g_app. reflexivity.
Qed.

Ltac by_unit x c :=
  destruct (Ascii.eqb_spec x c) as [->|?]; [reflexivity|].

Lemma replace_g_other c rep x :
  x <> c -> replace_g c rep (String x "") = String x "".
Proof.
  intros H. simpl. destruct (Ascii.eqb_spec x c); [contradiction|reflexivity].
Qed.

Lemma escapeString_unit x : escapeString (String x "") = escape_unit x.
Proof.
  unfold escape_unit.
  by_unit x BACKSLASH. by_unit x QUOTE. by_unit x LF.
  by_unit x CR. by_unit x TAB. by_unit x NUL.
  unfold escapeString. now rewrite !replace_g_other.
Qed.

Lemma escapeLike_unit x : escapeLike (String x "") = like_unit x.
Proof.
  unfold like_unit, escape_unit.
  by_unit x PERCENT. by_unit x UNDERSCORE.
  by_unit x BACKSLASH. by_unit x QUOTE. by_unit x LF.
  by_unit x CR. by_unit x TAB. by_unit x NUL.
  unfold escapeLike. now rewrite !replace_g_other.
Qed.

Lemma escapeString_single_pass s : escapeString s = flat_units escape_unit s.
Proof.
  induction s as [|x s IH]; [reflexivity|].
  rewrite escapeString_cons, escapeString_unit, IH. reflexivity.
Qed.

Lemma escapeLike_single_pass s : escapeLike s = flat_units like_unit s.
Proof.
  induction s as [|x s IH]; [reflexivity|].
  rewrite escapeLike_cons, escapeLike_unit, IH. reflexivity.
Qed.

(** ** Reading escaped text back *)

Lemma eqb_neq_false (x c : ascii) : x <> c -> Ascii.eqb x c = false.
Proof. intros H. destruct (Ascii.eqb_spec x c); [contradiction|reflexivity]. Qed.

Lemma well_escaped_escape_unit x t :
  well_escaped (escape_unit x ++ t) = well_escaped t.
Proof.
  unfold escape_unit.
  by_unit x BACKSLASH. by_unit x QUOTE. by_unit x LF.
  by_unit x CR. by_unit x TAB. by_unit x NUL.
  simpl. now rewrite !eqb_neq_false.
Qed.

Lemma after_closing_quote_escape_unit x t :
  after_closing_quote (escape_unit x ++ t) = after_closing_quote t.
Proof.
  unfold escape_unit.
  by_unit x BACKSLASH. by_unit x QUOTE. by_unit x LF.
  by_unit x CR. by_unit x TAB. by_unit x NUL.
  simpl. now rewrite !eqb_neq_false.
Qed.

Lemma occurs_escape_unit c x t :
  In c [LF; CR; TAB; NUL] ->
  occurs c (escape_unit x ++ t) = occurs c t.
Proof.
  intros Hc. unfold escape_unit.
  destruct (Ascii.eqb_spec x BACKSLASH) as [->|?];
    [simpl in Hc; intuition (subst; reflexivity)|].
  destruct (Ascii.eqb_spec x QUOTE) as [->|?];
    [simpl in Hc; intuition (subst; reflexivity)|].
  destruct (Ascii.eqb_spec x LF) as [->|?];
    [simpl in Hc; intuition (subst; reflexivity)|].
  destruct (Ascii.eqb_spec x CR) as [->|?];
    [simpl in Hc; intuition (subst; reflexivity)|].
  destruct (Ascii.eqb_spec x TAB) as [->|?];
    [simpl in Hc; intuition (subst; reflexivity)|].
  destruct (Ascii.eqb_spec x NUL) as [->|?];
    [simpl in Hc; intuition (subst; reflexivity)|].
  simpl in *. intuition (subst; now rewrite eqb_neq_false).
Qed.

Lemma well_escaped_flat s : well_escaped (flat_units escape_unit s) = true.
Proof.
  induction s as [|x s IH]; [reflexivity|].
  simpl. now rewrite well_escaped_escape_unit.
Qed.

Lemma closing_quote_flat s tail :
  after_closing_quote (flat_units escape_unit s ++ String QUOTE tail) = Some tail.
Proof.
  induction s as [|x s IH]; [reflexivity|].
  simpl. now rewrite append_assoc, after_closing_quote_escape_unit.
Qed.

Lemma occurs_flat c s :
  In c [LF; CR; TAB; NUL] -> occurs c (flat_units escape_unit s) = false.
Proof.
  intros Hc. induction s as [|x s IH]; [reflexivity|].
  simpl. now rewrite occurs_escape_unit.
Qed.

(** C1. For every string, [escapeString] runs its six substitutions in
    the order backslash, single quote, newline, carriage return, tab,
    NUL; the result is what a single pass over the code units gives, so
    every backslash in it is followed by one of the six escape codes, no
    single quote stands unescaped, none of the four control units is
    left, and a quote appended after it is the first unescaped quote met
    (an interpolated quote cannot close the literal early).  On
    [O'Brien] the result is [O], backslash, quote, [Brien]. *)
Theorem escapeString_order_and_safety :
  (forall s : string,
      escapeString s = run_steps string_steps s
      /\ escapeString s = flat_units escape_unit s
      /\ well_escaped (escapeString s) = true
      /\ (forall tail,
             after_closing_quote (escapeString s ++ String QUOTE tail) = Some tail)
      /\ occurs LF (escapeString s) = false
      /\ occurs CR (escapeString s) = false
      /\ occurs TAB (escapeString s) = false
      /\ occurs NUL (escapeString s) = false)
  /\ escapeString "O'Brien" = "O" ++ esc QUOTE ++ "Brien".
Proof.
  split; [|reflexivity].
  intros s. split; [reflexivity|].
  split; [apply escapeString_single_pass|].
  rewrite escapeString_single_pass.
  split; [apply well_escaped_flat|].
  split; [intros tail; apply closing_quote_flat|].
  repeat split; apply occurs_flat; simpl; tauto.
Qed.

(** C3. For every string, [escapeLike] runs the plain substitutions with
    the percent and underscore substitutions inserted after backslash
    and quote and before newline, carriage return, tab and NUL; in one
    pass it treats every code unit as [escapeString] does, except the
    two wildcards, which get a backslash.  The three sample patterns
    give the expected texts. *)
Theorem escapeLike_order_and_samples :
  (forall s : string,
      escapeLike s = run_steps like_steps s
      /\ escapeLike s = flat_units like_unit s)
  /\ like_steps
     = (firstn 2 string_steps
        ++ [ (PERCENT, esc PERCENT); (UNDERSCORE, esc UNDERSCORE) ]
        ++ skipn 2 string_steps)%list
  /\ like_unit PERCENT = esc PERCENT
  /\ like_unit UNDERSCORE = esc UNDERSCORE
  /\ (forall x, x = PERCENT \/ x = UNDERSCORE \/ like_unit x = escape_unit x)
  /\ escapeLike "100%" = "100" ++ esc PERCENT
  /\ escapeLike "test_value" = "test" ++ esc UNDERSCORE ++ "value"
  /\ escapeLike "50%_test's"
     = "50" ++ esc PERCENT ++ esc UNDERSCORE ++ "test" ++ esc QUOTE ++ "s".
Proof.
  split.
  { intros s. split; [reflexivity | apply escapeLike_single_pass]. }
  repeat split.
  intros x. unfold like_unit.
  destruct (Ascii.eqb_spec x PERCENT); [now left|].
  destruct (Ascii.eqb_spec x UNDERSCORE); [now right; left|now right; right].
Qed.

(** ** The loop of the template tag *)

Section TemplateTagFacts.

Variable escapeValue : JsValue -> bool -> Outcome string.

Lemma soql_loop_stops_on_throw strings values e idx :
  fold_left (soql_turn escapeValue strings values) idx (Throw e) = Throw e.
Proof. induction idx as [|i idx IH]; simpl; [reflexivity | exact IH]. Qed.

Lemma soql_loop_stops_on_illtyped strings values idx :
  fold_left (soql_turn escapeValue strings values) idx IllTyped = IllTyped.
Proof. induction idx as [|i idx IH]; simpl; [reflexivity | exact IH]. Qed.

Lemma fold_left_seq_head {A : Type} (f : A -> nat -> A) k n a :
  fold_left f (seq k (S n)) a = fold_left f (seq (S k) n) (f a k).
Proof. reflexivity. Qed.

(** The loop from index [length done_s] on, with [acc] built so far. *)
Lemma soql_loop_from values rest :
  forall done_s done_v first acc,
    List.length done_s = List.length done_v ->
    List.length rest = List.length values ->
    fold_left (soql_turn escapeValue (done_s ++ first :: rest) (done_v ++ values))
              (seq (List.length done_s) (S (List.length rest)))
              (Return acc)
    = (tail <- interleave escapeValue first values rest ;; Return (acc ++ tail)).
Proof.
  revert rest.
  induction values as [|v values IH]; intros [|s rest] done_s done_v first acc Hd Hr;
    try discriminate.
  - simpl. unfold soql_step.
    rewrite nth_middle, app_nil_r, Hd, Nat.ltb_irrefl. reflexivity.
  - cbn [List.length interleave].
    rewrite fold_left_seq_head.
    change (soql_turn escapeValue (done_s ++ first :: s :: rest) (done_v ++ v :: values)
              (Return acc) (List.length done_s))
      with (soql_step escapeValue (done_s ++ first :: s :: rest)
              (done_v ++ v :: values) acc (List.length done_s)).
    unfold soql_step.
    rewrite nth_middle.
    replace (List.length done_s <? List.length (done_v ++ v :: values))%nat with true
      by (symmetry; apply Nat.ltb_lt; rewrite length_app; simpl; lia).
    replace (nth (List.length done_s) (done_v ++ v :: values) VUndefined) with v
      by (rewrite Hd; symmetry; apply nth_middle).
    destruct (escapeValue v true) as [escaped|e|]; cbn [bind].
    + replace (done_s ++ first :: s :: rest)%list
        with ((done_s ++ [first]) ++ s :: rest)%list
        by (now rewrite <- app_assoc).
      replace (done_v ++ v :: values)%list
        with ((done_v ++ [v]) ++ values)%list
        by (now rewrite <- app_assoc).
      replace (S (List.length done_s)) with (List.length (done_s ++ [first]))
        by (rewrite length_app; simpl; lia).
      rewrite IH.
      * destruct (interleave escapeValue s values rest); cbn [bind];
          [|reflexivity|reflexivity].
        now rewrite !append_assoc.
      * rewrite !length_app. simpl. lia.
      * simpl in Hr. lia.
    + apply soql_loop_stops_on_throw.
    + apply soql_loop_stops_on_illtyped.
Qed.

Lemma soql_is_interleave first values rest :
  List.length rest = List.length values ->
  soql escapeValue (first :: rest) values = interleave escapeValue first values rest.
Proof.
  intros Hr. unfold soql.
  pose proof (soql_loop_from values rest [] [] first "" eq_refl Hr) as H.
  simpl in H. simpl. rewrite H.
  now destruct (interleave escapeValue first values rest).
Qed.

End TemplateTagFacts.

(** C2. For every first segment and every sequence of slots, each a
    value followed by the segment after it, [soql] returns the first
    segment, then for each slot in order the value escaped with default
    quoting and the segment as it is; the first failing value ends the
    composition.  This holds over either version of [escapeValue].  The
    Account query with the name [O'Brien] composes to the text with the
    quote escaped inside a quoted literal. *)
Theorem soql_interleaves_segments_and_values :
  (forall (escapeValue : JsValue -> bool -> Outcome string)
          (first : string) (slots : list (JsValue * string)),
      soql escapeValue (first :: map snd slots) (map fst slots)
      = interleave escapeValue first (map fst slots) (map snd slots))
  /\ (forall escapeValue first, soql escapeValue [first] [] = Return first)
  /\ (forall escapeValue s0 v s1 s2 w,
         soql escapeValue [s0; s1; s2] [v; w]
         = (a <- escapeValue v true ;; b <- escapeValue w true ;;
            Return (s0 ++ a ++ s1 ++ b ++ s2)))
  /\ soql SymbolVariant.escapeValue
          ["SELECT Id FROM Account WHERE Name = "; ""] [VString "O'Brien"]
     = Return ("SELECT Id FROM Account WHERE Name = '" ++ "O" ++ esc QUOTE ++ "Brien" ++ "'")
  /\ soql FieldVariant.escapeValue
          ["SELECT Id FROM Account WHERE Name = "; ""] [VString "O'Brien"]
     = Return ("SELECT Id FROM Account WHERE Name = '" ++ "O" ++ esc QUOTE ++ "Brien" ++ "'").
Proof.
  split.
  { intros escapeValue first slots. apply soql_is_interleave.
    now rewrite !length_map. }
  split; [reflexivity|].
  split; [|split; reflexivity].
  intros escapeValue s0 v s1 s2 w.
  rewrite (soql_is_interleave escapeValue s0 [v; w] [s1; s2] eq_refl).
  simpl. destruct (escapeValue v true); simpl; try reflexivity.
  destruct (escapeValue w true); reflexivity.
Qed.

(** ** Wrappers and type guards *)

(** C6. For every string and either value of the flag, [escapeValue] on
    [raw s] returns [s] itself, in both versions; composed into a
    template, [raw s] is inserted verbatim between the segments. *)
Theorem raw_passes_through :
  forall (s : string) (wrapStrings : bool),
    SymbolVariant.escapeValue (SymbolVariant.raw s) wrapStrings = Return s
    /\ FieldVariant.escapeValue (FieldVariant.raw s) wrapStrings = Return s
    /\ (forall before after,
           soql SymbolVariant.escapeValue [before; after] [SymbolVariant.raw s]
           = Return (before ++ s ++ after))
    /\ (forall before after,
           soql FieldVariant.escapeValue [before; after] [FieldVariant.raw s]
           = Return (before ++ s ++ after)).
Proof.
  intros s wrapStrings.
  split; [reflexivity|]. split; [reflexivity|].
  split; intros before after;
    now rewrite (soql_is_interleave _ before [_] [after] eq_refl).
Qed.

(** C10. [literal] checks nothing at run time: for every string it is
    [raw] of that string, and [escapeValue] then emits the string
    verbatim and unquoted whatever the flag, also for text that is no
    date literal at all. *)
Theorem literal_is_unchecked_raw :
  (forall (s : string) (wrapStrings : bool),
      SymbolVariant.literal s = SymbolVariant.raw s
      /\ SymbolVariant.isRawValue (SymbolVariant.literal s) = true
      /\ SymbolVariant.escapeValue (SymbolVariant.literal s) wrapStrings = Return s)
  /\ may_be_DateLiteral "TODAY" = true
  /\ may_be_DateLiteral "LAST_N_DAYS:30" = true
  /\ may_be_DateLiteral "1 OR Id != null" = false
  /\ soql SymbolVariant.escapeValue
          ["SELECT Id FROM Account WHERE CreatedDate > "; ""]
          [SymbolVariant.literal "1 OR Id != null"]
     = Return "SELECT Id FROM Account WHERE CreatedDate > 1 OR Id != null".
Proof.
  split; [intros s wrapStrings; repeat split|repeat split].
Qed.

Lemma existsb_string_keys_no_symbol key props :
  forallb is_string_key (map fst props) = true ->
  has_property (SymbolFor key) (VObject props) = false.
Proof.
  induction props as [|[k x] props IH]; simpl; [reflexivity|].
  intros H. apply andb_prop in H as [Hk Hrest].
  destruct k; [simpl; now apply IH | discriminate].
Qed.

(** A value that carries none of the marker keys of a version fails
    every type guard of that version, and when it is an object
    [escapeValue] ends in the fallback for unsupported types. *)
Theorem unmarked_value_is_no_wrapper :
  (forall val,
      carries_marker symbol_markers val = false ->
      SymbolVariant.isRawValue val = false
      /\ SymbolVariant.isLikeValue val = false
      /\ SymbolVariant.isDateValue val = false)
  /\ (forall props wrapStrings,
         carries_marker symbol_markers (VObject props) = false ->
         SymbolVariant.escapeValue (VObject props) wrapStrings
         = Throw (Error "Unsupported SOQL value type: object"))
  /\ (forall val,
         carries_marker field_markers val = false ->
         FieldVariant.isRawValue val = false
         /\ FieldVariant.isLikeValue val = false)
  /\ (forall props wrapStrings,
         carries_marker field_markers (VObject props) = false ->
         FieldVariant.escapeValue (VObject props) wrapStrings
         = Throw (Error "Unsupported SOQL value type: object"))
  /\ (forall props,
         forallb is_string_key (map fst props) = true ->
         carries_marker symbol_markers (VObject props) = false)
  /\ (forall payload wrapStrings,
         SymbolVariant.escapeValue (VObject [ (StringKey "value", payload) ]) wrapStrings
         = Throw (Error "Unsupported SOQL value type: object")
         /\ FieldVariant.escapeValue (VObject [ (StringKey "value", payload) ]) wrapStrings
            = Throw (Error "Unsupported SOQL value type: object")).
Proof.
  assert (Hsym : forall val,
             carries_marker symbol_markers val = false ->
             SymbolVariant.isRawValue val = false
             /\ SymbolVariant.isLikeValue val = false
             /\ SymbolVariant.isDateValue val = false).
  { intros val H. unfold carries_marker, symbol_markers in H. simpl in H.
    apply orb_false_elim in H as [Hraw H].
    apply orb_false_elim in H as [Hlike H].
    apply orb_false_elim in H as [Hdate _].
    unfold SymbolVariant.isRawValue, SymbolVariant.isLikeValue,
      SymbolVariant.isDateValue.
    rewrite Hraw, Hlike, Hdate, !andb_false_r. auto. }
  assert (Hfld : forall val,
             carries_marker field_markers val = false ->
             FieldVariant.isRawValue val = false
             /\ FieldVariant.isLikeValue val = false).
  { intros val H. unfold carries_marker, field_markers in H. simpl in H.
    apply orb_false_elim in H as [Hraw H].
    apply orb_false_elim in H as [Hlike _].
    unfold FieldVariant.isRawValue, FieldVariant.isLikeValue.
    rewrite Hraw, Hlike, !andb_false_r. auto. }
  split; [exact Hsym|].
  split.
  { intros props w H. destruct (Hsym _ H) as (Hr & Hl & Hd).
    cbn [SymbolVariant.escapeValue is_null is_undefined orb].
    now rewrite Hr, Hl, Hd. }
  split; [exact Hfld|].
  split.
  { intros props w H. destruct (Hfld _ H) as (Hr & Hl).
    cbn [FieldVariant.escapeValue is_null is_undefined orb].
    now rewrite Hr, Hl. }
  split.
  { intros props H. unfold carries_marker, symbol_markers. simpl.
    unfold SymbolVariant.RAW_SYMBOL, SymbolVariant.LIKE_SYMBOL,
      SymbolVariant.DATE_SYMBOL.
    pose proof (existsb_string_keys_no_symbol "@niicojs/soql:raw" props H) as H1.
    pose proof (existsb_string_keys_no_symbol "@niicojs/soql:like" props H) as H2.
    pose proof (existsb_string_keys_no_symbol "@niicojs/soql:date" props H) as H3.
    simpl in H1, H2, H3. now rewrite H1, H2, H3. }
  intros payload w. split; reflexivity.
Qed.


(** ** Arrays and the two versions of the escaper *)

Lemma SoqlValue_nested_ind (P : SoqlValue -> Prop) :
  (forall s, P (SvString s)) ->
  (forall n, P (SvNumber n)) ->
  (forall b, P (SvBoolean b)) ->
  (forall t, P (SvDate t)) ->
  P SvNull ->
  P SvUndefined ->
  (forall value, P (SvRaw value)) ->
  (forall value, P (SvLike value)) ->
  (forall items, Forall P items -> P (SvArray items)) ->
  forall v, P v.
Proof.
  intros Hs Hn Hb Ht Hnull Hundef Hraw Hlike Harr.
  fix IH 1.
  intros [s|n|b|t| | |value|value|items];
    [apply Hs|apply Hn|apply Hb|apply Ht|exact Hnull|exact Hundef
    |apply Hraw|apply Hlike|].
  apply Harr.
  induction items as [|item items IHitems]; constructor; [apply IH | exact IHitems].
Qed.

Lemma map_outcome_pointwise {A B C : Type} (f g : B -> Outcome C) (i j : A -> B) items :
  Forall (fun x => f (i x) = g (j x)) items ->
  map_outcome f (map i items) = map_outcome g (map j items).
Proof.
  induction 1 as [|x items Hx _ IH]; [reflexivity|].
  cbn [map map_outcome]. rewrite Hx.
  destruct (g (j x)); cbn [bind]; [|reflexivity|reflexivity].
  cbn [map_outcome] in IH. now rewrite IH.
Qed.

Lemma existsb_false_Forall {A : Type} (p : A -> bool) items :
  existsb p items = false -> Forall (fun x => p x = false) items.
Proof.
  induction items as [|x items IH]; simpl; [constructor|].
  intros H. apply orb_false_elim in H as [Hx Hrest]. constructor; auto.
Qed.

Lemma versions_agree_on_declared_values (v : SoqlValue) :
  has_empty_array v = false ->
  forall wrapStrings,
    SymbolVariant.escapeValue (SymbolVariant.inject v) wrapStrings
    = FieldVariant.escapeValue (FieldVariant.inject v) wrapStrings.
Proof.
  induction v as [s|n|b|t| | |value|value|items IH] using SoqlValue_nested_ind;
    intros Hne w; try reflexivity.
  destruct items as [|item items]; [discriminate|].
  cbn [SymbolVariant.inject FieldVariant.inject].
  change (SymbolVariant.escapeValue (VArray (map SymbolVariant.inject (item :: items))) w)
    with (escapeArray_throwing SymbolVariant.escapeValue
            (map SymbolVariant.inject (item :: items))).
  change (FieldVariant.escapeValue (VArray (map FieldVariant.inject (item :: items))) w)
    with (escapeArray_placeholder FieldVariant.escapeValue
            (map FieldVariant.inject (item :: items))).
  unfold escapeArray_throwing, escapeArray_placeholder.
  rewrite !length_map. cbn [List.length Nat.eqb].
  rewrite (map_outcome_pointwise
             (fun x => SymbolVariant.escapeValue x true)
             (fun x => FieldVariant.escapeValue x true)
             SymbolVariant.inject FieldVariant.inject (item :: items)).
  - reflexivity.
  - change (existsb has_empty_array (item :: items) = false) in Hne.
    apply existsb_false_Forall in Hne.
    rewrite Forall_forall in IH, Hne. apply Forall_forall.
    intros x Hx. apply IH; auto.
Qed.

Lemma inject_same_without_wrapper (v : SoqlValue) :
  has_wrapper v = false -> SymbolVariant.inject v = FieldVariant.inject v.
Proof.
  induction v as [s|n|b|t| | |value|value|items IH] using SoqlValue_nested_ind;
    intros Hw; try reflexivity; try discriminate.
  simpl in *. f_equal. apply existsb_false_Forall in Hw.
  apply map_ext_in. rewrite Forall_forall in IH, Hw. intros x Hx. auto.
Qed.

Lemma map_outcome_all_return {A B : Type} (f : A -> Outcome B) items results :
  Forall2 (fun item r => f item = Return r) items results ->
  map_outcome f items = Return results.
Proof.
  induction 1 as [|item r items results Hr _ IH]; [reflexivity|].
  cbn [map_outcome] in *. now rewrite Hr, IH.
Qed.

Lemma map_outcome_first_throw {A B : Type} (f : A -> Outcome B) before results bad e after :
  Forall2 (fun item r => f item = Return r) before results ->
  f bad = Throw e ->
  map_outcome f (before ++ bad :: after) = Throw e.
Proof.
  intros Hb Hbad.
  induction Hb as [|item r items results Hr _ IH]; cbn [app map_outcome] in *.
  - now rewrite Hbad.
  - now rewrite Hr, IH.
Qed.

Lemma length_zero_eqb_cons {A : Type} (x : A) (l : list A) :
  (List.length (x :: l) =? 0)%nat = false.
Proof. reflexivity. Qed.

(** C4, as the code has it.  On a non-empty array whose elements escape,
    with the flag set, to the texts [escaped], both versions of
    [escapeArray] return those texts joined with a comma and a space
    inside parentheses, and so does [escapeValue] on the array whatever
    its own flag; an element that throws, after elements that escape,
    makes the call throw the same exception.  On the empty array the
    version with symbol markers throws the error that says empty arrays
    are not allowed, and the version with field markers returns
    [(null)].  The array of [a], [b], [c] gives [('a', 'b', 'c')]. *)
Theorem escapeArray_elements_and_empty_policy :
  (forall arr escaped wrapStrings,
      arr <> [] ->
      Forall2 (fun item e => SymbolVariant.escapeValue item true = Return e) arr escaped ->
      SymbolVariant.escapeArray arr = Return ("(" ++ join_strings ", " escaped ++ ")")
      /\ SymbolVariant.escapeValue (VArray arr) wrapStrings
         = Return ("(" ++ join_strings ", " escaped ++ ")"))
  /\ (forall arr escaped wrapStrings,
         arr <> [] ->
         Forall2 (fun item e => FieldVariant.escapeValue item true = Return e) arr escaped ->
         FieldVariant.escapeArray arr = Return ("(" ++ join_strings ", " escaped ++ ")")
         /\ FieldVariant.escapeValue (VArray arr) wrapStrings
            = Return ("(" ++ join_strings ", " escaped ++ ")"))
  /\ (forall before escaped bad e after,
         Forall2 (fun item r => SymbolVariant.escapeValue item true = Return r)
                 before escaped ->
         SymbolVariant.escapeValue bad true = Throw e ->
         SymbolVariant.escapeArray (before ++ bad :: after) = Throw e)
  /\ (forall before escaped bad e after,
         Forall2 (fun item r => FieldVariant.escapeValue item true = Return r)
                 before escaped ->
         FieldVariant.escapeValue bad true = Throw e ->
         FieldVariant.escapeArray (before ++ bad :: after) = Throw e)
  /\ SymbolVariant.escapeArray [] = Throw (Error empty_array_message)
  /\ FieldVariant.escapeArray [] = Return "(null)"
  /\ SymbolVariant.escapeArray [VString "a"; VString "b"; VString "c"]
     = Return "('a', 'b', 'c')"
  /\ FieldVariant.escapeArray [VString "a"; VString "b"; VString "c"]
     = Return "('a', 'b', 'c')".
Proof.
  split.
  { intros [|item arr] escaped w Hne H; [contradiction|].
    assert (E : SymbolVariant.escapeArray (item :: arr)
                = Return ("(" ++ join_strings ", " escaped ++ ")")).
    { unfold SymbolVariant.escapeArray, escapeArray_throwing.
      rewrite length_zero_eqb_cons.
      now rewrite (map_outcome_all_return _ _ _ H). }
    split; [exact E|]. rewrite <- E. reflexivity. }
  split.
  { intros [|item arr] escaped w Hne H; [contradiction|].
    assert (E : FieldVariant.escapeArray (item :: arr)
                = Return ("(" ++ join_strings ", " escaped ++ ")")).
    { unfold FieldVariant.escapeArray, escapeArray_placeholder.
      rewrite length_zero_eqb_cons.
      now rewrite (map_outcome_all_return _ _ _ H). }
    split; [exact E|]. rewrite <- E. reflexivity. }
  split.
  { intros before escaped bad e after Hb Hbad.
    unfold SymbolVariant.escapeArray, escapeArray_throwing.
    rewrite (map_outcome_first_throw _ _ _ _ _ after Hb Hbad).
    destruct before; reflexivity. }
  split.
  { intros before escaped bad e after Hb Hbad.
    unfold FieldVariant.escapeArray, escapeArray_placeholder.
    rewrite (map_outcome_first_throw _ _ _ _ _ after Hb Hbad).
    destruct before; reflexivity. }
  repeat split.
Qed.

Lemma escapeArray_elements_and_empty_policy_witness :
  [VString "O'Brien"; VBoolean true; VNull] <> []
  /\ SymbolVariant.escapeValue (VArray [VString "O'Brien"; VBoolean true; VNull]) false
     = Return ("(" ++ join_strings ", " ["'O" ++ esc QUOTE ++ "Brien'"; "true"; "null"] ++ ")")
  /\ FieldVariant.escapeArray [VString "O'Brien"; VBoolean true; VNull]
     = Return ("(" ++ join_strings ", " ["'O" ++ esc QUOTE ++ "Brien'"; "true"; "null"] ++ ")")
  /\ SymbolVariant.escapeArray ([VString "a"] ++ VNumber S754_nan :: [VString "b"])
     = Throw (Error "Invalid SOQL number value: NaN")
  /\ FieldVariant.escapeArray ([VString "a"] ++ VNumber S754_nan :: [VString "b"])
     = Throw (Error "Invalid SOQL number value: NaN").
Proof.
  split; [discriminate|].
  split.
  { apply (proj1 escapeArray_elements_and_empty_policy
             [VString "O'Brien"; VBoolean true; VNull]
             ["'O" ++ esc QUOTE ++ "Brien'"; "true"; "null"] false).
    - discriminate.
    - repeat constructor. }
  split.
  { apply (proj1 (proj2 escapeArray_elements_and_empty_policy)
             [VString "O'Brien"; VBoolean true; VNull]
             ["'O" ++ esc QUOTE ++ "Brien'"; "true"; "null"] false).
    - discriminate.
    - repeat constructor. }
  split.
  { apply (proj1 (proj2 (proj2 escapeArray_elements_and_empty_policy))
             [VString "a"] ["'a'"]).
    - repeat constructor.
    - reflexivity. }
  apply (proj1 (proj2 (proj2 (proj2 escapeArray_elements_and_empty_policy)))
           [VString "a"] ["'a'"]).
  - repeat constructor.
  - reflexivity.
Defined.

(** C4, as it is worded, fails on the version with field markers: its
    [escapeArray] returns the placeholder on the empty array and throws
    nothing. *)
Lemma escapeArray_empty_placeholder :
  FieldVariant.escapeArray [] = Return "(null)"
  /\ (forall e, FieldVariant.escapeArray [] <> Throw e)
  /\ FieldVariant.escapeValue (VArray []) true = Return "(null)".
Proof.
  split; [reflexivity|]. split; [|reflexivity].
  intros e H. discriminate H.
Qed.

(** C9, as the code has it.  A declared value without an empty array at
    any depth, handed to each version with the wrappers that version's
    own [raw] and [like] build, gets the same outcome from both (the
    same text or the same exception); without wrappers the two inputs
    are one value.  On the empty array the version with symbol markers
    throws and the version with field markers returns [(null)]. *)
Theorem versions_agree_on_corresponding_inputs :
  (forall (v : SoqlValue) (wrapStrings : bool),
      has_empty_array v = false ->
      SymbolVariant.escapeValue (SymbolVariant.inject v) wrapStrings
      = FieldVariant.escapeValue (FieldVariant.inject v) wrapStrings)
  /\ (forall (v : SoqlValue) (wrapStrings : bool),
         has_empty_array v = false ->
         has_wrapper v = false ->
         SymbolVariant.inject v = FieldVariant.inject v
         /\ SymbolVariant.escapeValue (SymbolVariant.inject v) wrapStrings
            = FieldVariant.escapeValue (SymbolVariant.inject v) wrapStrings)
  /\ (forall wrapStrings,
         SymbolVariant.escapeValue (VArray []) wrapStrings
         = Throw (Error empty_array_message)
         /\ FieldVariant.escapeValue (VArray []) wrapStrings = Return "(null)").
Proof.
  split.
  { intros v w H. now apply versions_agree_on_declared_values. }
  split.
  { intros v w He Hw. split; [now apply inject_same_without_wrapper|].
    rewrite (inject_same_without_wrapper v Hw) at 2.
    now apply versions_agree_on_declared_values. }
  intros w. split; reflexivity.
Qed.

Lemma versions_agree_on_corresponding_inputs_witness :
  has_empty_array
    (SvArray [SvString "a"; SvRaw "Name"; SvArray [SvLike "50%"; SvNull]]) = false
  /\ SymbolVariant.escapeValue
       (SymbolVariant.inject
          (SvArray [SvString "a"; SvRaw "Name"; SvArray [SvLike "50%"; SvNull]])) false
     = FieldVariant.escapeValue
         (FieldVariant.inject
            (SvArray [SvString "a"; SvRaw "Name"; SvArray [SvLike "50%"; SvNull]])) false
  /\ has_wrapper (SvArray [SvString "a"; SvBoolean true]) = false
  /\ SymbolVariant.inject (SvArray [SvString "a"; SvBoolean true])
     = FieldVariant.inject (SvArray [SvString "a"; SvBoolean true]).
Proof.
  split; [reflexivity|].
  split.
  { apply (proj1 versions_agree_on_corresponding_inputs). reflexivity. }
  split; [reflexivity|].
  apply (proj1 (proj2 versions_agree_on_corresponding_inputs)
           (SvArray [SvString "a"; SvBoolean true]) true); reflexivity.
Defined.

(** C9, as it is worded, fails on a wrapper handed to the version that
    did not build it: the input holds no empty array and no date-only
    wrapper, one version returns the text and the other rejects the
    object as an unsupported type.  It also fails on an object that
    has the symbol marker of a raw value and the field marker of a LIKE
    pattern: both versions return, with different texts. *)
Lemma versions_differ_on_foreign_wrapper :
  contains_empty_array (SymbolVariant.raw "Name") = false
  /\ contains_date_wrapper (SymbolVariant.raw "Name") = false
  /\ SymbolVariant.escapeValue (SymbolVariant.raw "Name") true = Return "Name"
  /\ FieldVariant.escapeValue (SymbolVariant.raw "Name") true
     = Throw (Error "Unsupported SOQL value type: object")
  /\ SymbolVariant.escapeValue (SymbolVariant.raw "Name") true
     <> FieldVariant.escapeValue (SymbolVariant.raw "Name") true
  /\ SymbolVariant.escapeValue
       (VObject [ (SymbolVariant.RAW_SYMBOL, VBoolean true);
                  (StringKey "__like", VBoolean true);
                  (StringKey "value", VString "a%") ]) true
     = Return "a%"
  /\ FieldVariant.escapeValue
       (VObject [ (SymbolVariant.RAW_SYMBOL, VBoolean true);
                  (StringKey "__like", VBoolean true);
                  (StringKey "value", VString "a%") ]) true
     = Return ("'a" ++ esc PERCENT ++ "'").
Proof.
  repeat split. intros H. discriminate H.
Qed.

(** ** Numbers *)

Lemma all_units_app p a b :
  all_units p (a ++ b) = all_units p a && all_units p b.
Proof.
  induction a as [|x a IH]; simpl; [reflexivity|].
  now rewrite IH, andb_assoc.
Qed.

Lemma all_units_substring p s :
  all_units p s = true -> forall n m, all_units p (substring n m s) = true.
Proof.
  induction s as [|x s IH]; intros H n m.
  - now destruct n, m.
  - simpl in H. apply andb_prop in H as [Hx Hs].
    destruct n as [|n]; destruct m as [|m]; simpl; auto.
    now rewrite Hx, IH.
Qed.

Lemma all_units_zeros n : all_units number_unit (zeros n) = true.
Proof.
  unfold zeros. induction (Z.to_nat n) as [|k IH]; [reflexivity|exact IH].
Qed.

Lemma all_units_uint d : all_units number_unit (NilEmpty.string_of_uint d) = true.
Proof. induction d; simpl; auto. Qed.

Lemma all_units_decimal z : all_units number_unit (decimal z) = true.
Proof.
  unfold decimal, NilZero.string_of_int, NilZero.string_of_uint.
  destruct (Z.to_int z) as [d|d]; destruct d; simpl; auto using all_units_uint;
    try apply (all_units_uint (Decimal.D0 _)).
Qed.

Lemma all_units_render ds n :
  all_units number_unit ds = true ->
  all_units number_unit (render_digits ds n) = true.
Proof.
  intros H. unfold render_digits.
  repeat match goal with
         | |- context [if ?c then _ else _] => destruct c
         end;
    repeat (rewrite all_units_app; apply andb_true_intro; split);
    auto using all_units_zeros, all_units_decimal, all_units_substring.
Qed.

Lemma all_units_Number_toString s m e :
  all_units number_unit (Number_toString (S754_finite s m e)) = true.
Proof.
  unfold Number_toString.
  rewrite all_units_app. apply andb_true_intro. split.
  - now destruct s.
  - apply all_units_render, all_units_decimal.
Qed.

(** C5. On a Number, [escapeValue] (either version, either flag) throws
    when the Number is not finite, with a message that ends in the text
    of the offending value, which is [NaN], [Infinity] or [-Infinity];
    otherwise it returns [String(val)] as it is, a bare token made of
    digits, a decimal point, an exponent mark and signs only: no quote,
    no comma, no space.  42, -123 and 3.14159 give their usual texts. *)
Theorem escapeValue_number :
  (forall (n : Number) (wrapStrings : bool),
      SymbolVariant.escapeValue (VNumber n) wrapStrings
      = (if Number_isFinite n then Return (Number_toString n)
         else Throw (Error ("Invalid SOQL number value: " ++ Number_toString n)))
      /\ FieldVariant.escapeValue (VNumber n) wrapStrings
         = SymbolVariant.escapeValue (VNumber n) wrapStrings)
  /\ (forall n : Number,
         if Number_isFinite n
         then all_units number_unit (Number_toString n) = true
         else In (Number_toString n) ["NaN"; "Infinity"; "-Infinity"])
  /\ SymbolVariant.escapeValue (VNumber (Number_of_Z 42)) true = Return "42"
  /\ SymbolVariant.escapeValue (VNumber (Number_of_Z (-123))) true = Return "-123"
  /\ SymbolVariant.escapeValue
       (VNumber (Number_div (Number_of_Z 314159) (Number_of_Z 100000))) true
     = Return "3.14159"
  /\ SymbolVariant.escapeValue (VNumber (S754_infinity false)) true
     = Throw (Error "Invalid SOQL number value: Infinity")
  /\ SymbolVariant.escapeValue (VNumber S754_nan) true
     = Throw (Error "Invalid SOQL number value: NaN").
Proof.
  split.
  { intros n w. split; [|reflexivity]. now destruct n. }
  split.
  { intros [s|[|]| |s m e]; cbn [Number_isFinite]; simpl; auto.
    apply all_units_Number_toString. }
  repeat split; vm_compute; reflexivity.
Qed.

(** ** Dates *)

Lemma DayFromYear_succ y : DayFromYear (y + 1) = DayFromYear y + DaysInYear y.
Proof.
  unfold DayFromYear, DaysInYear.
  destruct (Z.eqb_spec (y mod 4) 0) as [H4|H4];
  destruct (Z.eqb_spec (y mod 100) 0) as [H100|H100];
  destruct (Z.eqb_spec (y mod 400) 0) as [H400|H400]; cbn [negb];
  replace (y + 1 - 1969) with (y - 1968) by lia;
  replace (y + 1 - 1901) with (y - 1900) by lia;
  replace (y + 1 - 1601) with (y - 1600) by lia;
  replace (y + 1 - 1970) with (y - 1969) by lia;
  Z.to_euclidean_division_equations; lia.
Qed.

(** [YearFromTime] is the largest year that starts on or before the day
    of [t]. *)
Lemma YearFromTime_spec t :
  DayFromYear (YearFromTime t) <= Day t < DayFromYear (YearFromTime t + 1).
Proof.
  unfold YearFromTime.
  generalize (Day t). intros d.
  set (y := 1970 + d * 400 / 146097).
  cbv zeta.
  destruct (Z.leb_spec (DayFromYear (y + 1)) d).
  - split; [lia|]. subst y. unfold DayFromYear in *.
    Z.to_euclidean_division_equations; lia.
  - destruct (Z.leb_spec (DayFromYear y) d).
    + lia.
    + replace (y - 1 + 1) with y by lia. split; [|lia].
      subst y. unfold DayFromYear in *.
      Z.to_euclidean_division_equations; lia.
Qed.

Lemma DayWithinYear_range t : 0 <= DayWithinYear t < 365 + InLeapYear t.
Proof.
  pose proof (YearFromTime_spec t) as H.
  rewrite DayFromYear_succ in H.
  unfold DayWithinYear, InLeapYear.
  unfold DaysInYear in *.
  destruct (negb (YearFromTime t mod 4 =? 0));
    [simpl; lia|].
  destruct (negb (YearFromTime t mod 100 =? 0));
    [simpl; lia|].
  destruct (negb (YearFromTime t mod 400 =? 0)); simpl; lia.
Qed.

Lemma InLeapYear_range t : 0 <= InLeapYear t <= 1.
Proof. unfold InLeapYear. destruct (_ =? _); lia. Qed.

Lemma MonthFromTime_range t : 0 <= MonthFromTime t <= 11.
Proof.
  unfold MonthFromTime. cbv zeta.
  repeat match goal with
         | |- context [if ?c then _ else _] => destruct c
         end; lia.
Qed.

Lemma DateFromTime_range t : 1 <= DateFromTime t <= 31.
Proof.
  pose proof (DayWithinYear_range t) as Hd.
  pose proof (InLeapYear_range t) as Hl.
  unfold DateFromTime, MonthFromTime. cbv zeta.
  repeat match goal with
         | |- context [if ?a <? ?b then _ else _] =>
             destruct (Z.ltb_spec a b)
         end; lia.
Qed.

Lemma digit_unit_is_digit n : is_digit (digit_unit n) = true.
Proof.
  unfold digit_unit.
  assert (H : 0 <= n mod 10 < 10) by (apply Z.mod_pos_bound; lia).
  assert (C : n mod 10 = 0 \/ n mod 10 = 1 \/ n mod 10 = 2 \/ n mod 10 = 3
              \/ n mod 10 = 4 \/ n mod 10 = 5 \/ n mod 10 = 6 \/ n mod 10 = 7
              \/ n mod 10 = 8 \/ n mod 10 = 9) by lia.
  repeat (destruct C as [->|C]; [reflexivity|]). now rewrite C.
Qed.

Lemma digit_is_no_dot c : is_digit c = true -> Ascii.eqb c "." = false.
Proof.
  intros H. destruct (Ascii.eqb_spec c "."); [subst; discriminate|reflexivity].
Qed.

Lemma occurs_app c a b : occurs c (a ++ b) = occurs c a || occurs c b.
Proof.
  induction a as [|x a IH]; simpl; [reflexivity|].
  now rewrite IH, orb_assoc.
Qed.

Lemma no_dot_fixed_digits w : forall n, occurs "." (fixed_digits w n) = false.
Proof.
  induction w as [|w IH]; intros n; [reflexivity|].
  cbn [fixed_digits]. rewrite occurs_app, IH. cbn [occurs orb].
  now rewrite digit_is_no_dot by apply digit_unit_is_digit.
Qed.

Lemma no_dot_iso_year y : occurs "." (iso_year y) = false.
Proof.
  unfold iso_year.
  destruct ((0 <=? y) && (y <=? 9999)); [apply no_dot_fixed_digits|].
  rewrite occurs_app, no_dot_fixed_digits. now destruct (y <? 0).
Qed.

Lemma replace_millis_skip p s :
  occurs "." p = false -> replace_millis (p ++ s) = p ++ replace_millis s.
Proof.
  induction p as [|x p IH]; intros H; [reflexivity|].
  simpl in H. apply orb_false_elim in H as [Hx Hp].
  cbn [append replace_millis]. rewrite Hx. cbn [andb]. now rewrite IH.
Qed.

Lemma replace_millis_at_millis n :
  replace_millis ("." ++ fixed_digits 3 n ++ "Z") = "Z".
Proof.
  cbn -[digit_unit Z.div]. now rewrite !digit_unit_is_digit.
Qed.

(** The text [formatDateTime] builds for any valid instant. *)
Lemma formatDateTime_fields t :
  formatDateTime (Some t)
  = Return (iso_year (YearFromTime t)
            ++ "-" ++ fixed_digits 2 (MonthFromTime t + 1)
            ++ "-" ++ fixed_digits 2 (DateFromTime t)
            ++ "T" ++ fixed_digits 2 (HourFromTime t)
            ++ ":" ++ fixed_digits 2 (MinFromTime t)
            ++ ":" ++ fixed_digits 2 (SecFromTime t)
            ++ "Z").
Proof.
  unfold formatDateTime, toISOString. cbn [bind]. f_equal.
  repeat (rewrite replace_millis_skip
            by solve [reflexivity | apply no_dot_fixed_digits | apply no_dot_iso_year]).
  now rewrite replace_millis_at_millis.
Qed.

Lemma floor_to_second t :
  Day (1000 * (t / 1000)) = Day t
  /\ HourFromTime (1000 * (t / 1000)) = HourFromTime t
  /\ MinFromTime (1000 * (t / 1000)) = MinFromTime t
  /\ SecFromTime (1000 * (t / 1000)) = SecFromTime t.
Proof.
  unfold Day, HourFromTime, MinFromTime, SecFromTime,
    msPerDay, msPerHour, msPerMinute, msPerSecond.
  repeat split; Z.to_euclidean_division_equations; lia.
Qed.

(** C7, as the code has it.  For every valid instant whose UTC year is
    between 0 and 9999, [formatDateTime] returns the four digits of the
    year, the two digits of the month counted from one, of the day of
    the month, of the hour, the minute and the second, in UTC, with the
    separators [-], [-], [T], [:], [:] and a final [Z]; every field is in
    its calendar range; the milliseconds do not matter, the instant
    being taken down to its whole second.  The instant
    2024-03-15T14:30:45.123Z renders as 2024-03-15T14:30:45Z. *)
Theorem formatDateTime_renders_utc_fields :
  forall t : Z,
    0 <= YearFromTime t <= 9999 ->
    formatDateTime (Some t)
    = Return (fixed_digits 4 (YearFromTime t)
              ++ "-" ++ fixed_digits 2 (MonthFromTime t + 1)
              ++ "-" ++ fixed_digits 2 (DateFromTime t)
              ++ "T" ++ fixed_digits 2 (HourFromTime t)
              ++ ":" ++ fixed_digits 2 (MinFromTime t)
              ++ ":" ++ fixed_digits 2 (SecFromTime t)
              ++ "Z")
    /\ (1 <= MonthFromTime t + 1 <= 12 /\ 1 <= DateFromTime t <= 31
        /\ 0 <= HourFromTime t < 24 /\ 0 <= MinFromTime t < 60
        /\ 0 <= SecFromTime t < 60)
    /\ formatDateTime (Some t) = formatDateTime (Some (1000 * (t / 1000)))
    /\ toISOString (Some 1710513045123) = Return "2024-03-15T14:30:45.123Z"
    /\ formatDateTime (Some 1710513045123) = Return "2024-03-15T14:30:45Z".
Proof.
  intros t Hy. split.
  { rewrite formatDateTime_fields. unfold iso_year.
    replace ((0 <=? YearFromTime t) && (YearFromTime t <=? 9999)) with true;
      [reflexivity|].
    symmetry. apply andb_true_intro. split; apply Z.leb_le; lia. }
  split.
  { pose proof (MonthFromTime_range t). pose proof (DateFromTime_range t).
    unfold HourFromTime, MinFromTime, SecFromTime.
    pose proof (Z.mod_pos_bound (t / msPerHour) 24).
    pose proof (Z.mod_pos_bound (t / msPerMinute) 60).
    pose proof (Z.mod_pos_bound (t / msPerSecond) 60).
    lia. }
  split; [|split; vm_compute; reflexivity].
  rewrite !formatDateTime_fields.
  destruct (floor_to_second t) as (Hd & Hh & Hm & Hs).
  rewrite Hh, Hm, Hs.
  unfold DateFromTime, MonthFromTime, DayWithinYear, InLeapYear, YearFromTime.
  now rewrite Hd.
Qed.

Lemma formatDateTime_renders_utc_fields_witness :
  0 <= YearFromTime 1710513045123 <= 9999
  /\ formatDateTime (Some 1710513045123)
     = Return (fixed_digits 4 (YearFromTime 1710513045123)
               ++ "-" ++ fixed_digits 2 (MonthFromTime 1710513045123 + 1)
               ++ "-" ++ fixed_digits 2 (DateFromTime 1710513045123)
               ++ "T" ++ fixed_digits 2 (HourFromTime 1710513045123)
               ++ ":" ++ fixed_digits 2 (MinFromTime 1710513045123)
               ++ ":" ++ fixed_digits 2 (SecFromTime 1710513045123)
               ++ "Z").
Proof.
  split; [vm_compute; split; discriminate|].
  apply (formatDateTime_renders_utc_fields 1710513045123).
  vm_compute. split; discriminate.
Defined.

(** C7, as it is worded, fails past the year 9999: the first instant of
    the year 10000 is rendered with a sign and six year digits, 23 code
    units in all instead of the 20 of YYYY-MM-DDThh:mm:ssZ. *)
Lemma formatDateTime_year_10000 :
  YearFromTime 253402300800000 = 10000
  /\ formatDateTime (Some 253402300800000) = Return "+010000-01-01T00:00:00Z"
  /\ formatDateTime (Some 253402300800000)
     <> Return (fixed_digits 4 (YearFromTime 253402300800000)
                ++ "-" ++ fixed_digits 2 (MonthFromTime 253402300800000 + 1)
                ++ "-" ++ fixed_digits 2 (DateFromTime 253402300800000)
                ++ "T" ++ fixed_digits 2 (HourFromTime 253402300800000)
                ++ ":" ++ fixed_digits 2 (MinFromTime 253402300800000)
                ++ ":" ++ fixed_digits 2 (SecFromTime 253402300800000)
                ++ "Z").
Proof.
  split; [reflexivity|]. split; [reflexivity|].
  vm_compute. intros H. discriminate H.
Qed.

(** ** Further properties of the string escapers *)

Lemma flat_units_app f a b :
  flat_units f (a ++ b) = flat_units f a ++ flat_units f b.
Proof.
  induction a as [|x a IH]; simpl; [reflexivity|].
  now rewrite IH, append_assoc.
Qed.

(** X1. Escaping distributes over concatenation: escaping two pieces
    and joining them is escaping the joined text, for [escapeString]
    and for [escapeLike]. *)
Theorem escapers_distribute_over_append :
  forall a b : string,
    escapeString (a ++ b) = escapeString a ++ escapeString b
    /\ escapeLike (a ++ b) = escapeLike a ++ escapeLike b.
Proof.
  intros a b.
  rewrite !escapeString_single_pass, !escapeLike_single_pass.
  split; apply flat_units_app.
Qed.

Lemma unescape_escape_unit x t :
  unescape (escape_unit x ++ t) = String x (unescape t).
Proof.
  unfold escape_unit.
  by_unit x BACKSLASH. by_unit x QUOTE. by_unit x LF.
  by_unit x CR. by_unit x TAB. by_unit x NUL.
  simpl. now rewrite eqb_neq_false.
Qed.

Lemma unescape_like_unit x t :
  unescape (like_unit x ++ t) = String x (unescape t).
Proof.
  unfold like_unit.
  by_unit x PERCENT. by_unit x UNDERSCORE.
  apply unescape_escape_unit.
Qed.

Lemma unescape_escapeString s : unescape (escapeString s) = s.
Proof.
  rewrite escapeString_single_pass.
  induction s as [|x s IH]; [reflexivity|].
  simpl. now rewrite unescape_escape_unit, IH.
Qed.

Lemma unescape_escapeLike s : unescape (escapeLike s) = s.
Proof.
  rewrite escapeLike_single_pass.
  induction s as [|x s IH]; [reflexivity|].
  simpl. now rewrite unescape_like_unit, IH.
Qed.

(** X2. Escaping loses nothing: reading every backslash pair of the
    output back as the unit it stands for gives the input again, so two
    different strings never escape to the same text, under
    [escapeString] and under [escapeLike]. *)
Theorem escapers_are_reversible :
  (forall s, unescape (escapeString s) = s /\ unescape (escapeLike s) = s)
  /\ (forall a b, escapeString a = escapeString b -> a = b)
  /\ (forall a b, escapeLike a = escapeLike b -> a = b).
Proof.
  split; [intros s; split; [apply unescape_escapeString|apply unescape_escapeLike]|].
  split; intros a b H.
  - rewrite <- (unescape_escapeString a), <- (unescape_escapeString b). now rewrite H.
  - rewrite <- (unescape_escapeLike a), <- (unescape_escapeLike b). now rewrite H.
Qed.

Lemma escapers_are_reversible_witness :
  escapeString "a'b" = escapeString (String "a" (String QUOTE "b"))
  /\ "a'b" = String "a" (String QUOTE "b")
  /\ escapeLike "5%" = escapeLike (String "5" (String PERCENT ""))
  /\ "5%" = String "5" (String PERCENT "").
Proof.
  split; [reflexivity|].
  split; [apply (proj1 (proj2 escapers_are_reversible)); reflexivity|].
  split; [reflexivity|].
  apply (proj2 (proj2 escapers_are_reversible)); reflexivity.
Defined.

Lemma length_append_string a b :
  String.length (a ++ b) = (String.length a + String.length b)%nat.
Proof. induction a as [|x a IH]; simpl; [reflexivity|now rewrite IH]. Qed.

Lemma escape_unit_length x :
  String.length (escape_unit x) = (if needs_escape x then 2 else 1)%nat.
Proof.
  unfold escape_unit, needs_escape.
  by_unit x BACKSLASH. by_unit x QUOTE. by_unit x LF.
  by_unit x CR. by_unit x TAB. by_unit x NUL.
  reflexivity.
Qed.

Lemma like_unit_length x :
  (1 <= String.length (like_unit x) <= 2)%nat.
Proof.
  unfold like_unit.
  destruct (Ascii.eqb x PERCENT); [simpl; lia|].
  destruct (Ascii.eqb x UNDERSCORE); [simpl; lia|].
  rewrite escape_unit_length. destruct (needs_escape x); lia.
Qed.

(** X3. Escaping never shortens a string and at most doubles it, under
    [escapeString] and under [escapeLike]. *)
Theorem escaped_length_bounds :
  forall s : string,
    (String.length s <= String.length (escapeString s) <= 2 * String.length s)%nat
    /\ (String.length s <= String.length (escapeLike s) <= 2 * String.length s)%nat.
Proof.
  intros s. rewrite escapeString_single_pass, escapeLike_single_pass.
  induction s as [|x s [IH1 IH2]]; [simpl; lia|].
  cbn [flat_units String.length]. rewrite !length_append_string.
  rewrite escape_unit_length.
  pose proof (like_unit_length x).
  destruct (needs_escape x); lia.
Qed.

Lemma escape_unit_plain x :
  needs_escape x = false -> escape_unit x = String x "".
Proof.
  unfold needs_escape, escape_unit. intros H.
  repeat (apply orb_false_elim in H as [H ?]).
  now repeat match goal with E : Ascii.eqb _ _ = false |- _ => rewrite E; clear E end.
Qed.

Lemma escapeString_length_grows s :
  any_unit needs_escape s = true ->
  (String.length s < String.length (escapeString s))%nat.
Proof.
  rewrite escapeString_single_pass.
  induction s as [|x s IH]; [discriminate|].
  cbn [any_unit flat_units String.length]. rewrite length_append_string.
  rewrite escape_unit_length.
  pose proof (proj1 (escaped_length_bounds s)) as Hb.
  rewrite escapeString_single_pass in Hb.
  destruct (needs_escape x); simpl; intros H; [lia|].
  specialize (IH H). lia.
Qed.

(** X4. [escapeString] returns its input unchanged exactly when the
    input holds none of the six units it rewrites (backslash, quote,
    newline, carriage return, tab, NUL); in particular escaping an
    already escaped text that holds a backslash changes it again. *)
Theorem escapeString_fixes_exactly_plain_text :
  forall s : string,
    String.eqb (escapeString s) s = negb (any_unit needs_escape s).
Proof.
  intros s. destruct (any_unit needs_escape s) eqn:E; simpl.
  - apply String.eqb_neq. intros H.
    pose proof (escapeString_length_grows s E) as Hl. rewrite H in Hl. lia.
  - apply String.eqb_eq. rewrite escapeString_single_pass.
    induction s as [|x s IH]; [reflexivity|].
    cbn [any_unit] in E. apply orb_false_elim in E as [Hx Hs].
    cbn [flat_units]. now rewrite (escape_unit_plain x Hx), IH.
Qed.

Lemma wildcards_after_escape_unit x :
  replace_g UNDERSCORE (esc UNDERSCORE)
    (replace_g PERCENT (esc PERCENT) (escape_unit x))
  = like_unit x.
Proof.
  unfold like_unit, escape_unit.
  by_unit x PERCENT. by_unit x UNDERSCORE.
  by_unit x BACKSLASH. by_unit x QUOTE. by_unit x LF.
  by_unit x CR. by_unit x TAB. by_unit x NUL.
  now rewrite !replace_g_other.
Qed.

(** X5. [escapeLike] is [escapeString] followed by the two wildcard
    substitutions: the plain escaping brings in no percent sign and no
    underscore, so the wildcards may as well be escaped last. *)
Theorem escapeLike_is_escapeString_then_wildcards :
  forall s : string,
    escapeLike s
    = replace_g UNDERSCORE (esc UNDERSCORE)
        (replace_g PERCENT (esc PERCENT) (escapeString s)).
Proof.
  intros s. rewrite escapeLike_single_pass, escapeString_single_pass.
  induction s as [|x s IH]; [reflexivity|].
  cbn [flat_units]. rewrite !replace_g_app, <- IH.
  now rewrite wildcards_after_escape_unit.
Qed.

Lemma like_well_escaped_like_unit x t :
  like_well_escaped (like_unit x ++ t) = like_well_escaped t.
Proof.
  unfold like_unit, escape_unit.
  by_unit x PERCENT. by_unit x UNDERSCORE.
  by_unit x BACKSLASH. by_unit x QUOTE. by_unit x LF.
  by_unit x CR. by_unit x TAB. by_unit x NUL.
  simpl. now rewrite !eqb_neq_false.
Qed.

Lemma after_closing_quote_like_unit x t :
  after_closing_quote (like_unit x ++ t) = after_closing_quote t.
Proof.
  unfold like_unit.
  by_unit x PERCENT. by_unit x UNDERSCORE.
  apply after_closing_quote_escape_unit.
Qed.

(** X6. A LIKE pattern built with [like] is escaped by [escapeLike] and
    quoted on demand, in both versions; in the escaped text no quote,
    percent sign or underscore stands unescaped, and the quote that
    closes the literal is the first unescaped quote met, so the payload
    can neither end the literal early nor act as a wildcard. *)
Theorem like_pattern_is_neutralised :
  forall (s : string) (wrapStrings : bool),
    SymbolVariant.escapeValue (SymbolVariant.like s) wrapStrings
    = Return (quoted_if wrapStrings (escapeLike s))
    /\ FieldVariant.escapeValue (FieldVariant.like s) wrapStrings
       = Return (quoted_if wrapStrings (escapeLike s))
    /\ like_well_escaped (escapeLike s) = true
    /\ (forall tail,
           after_closing_quote (escapeLike s ++ String QUOTE tail) = Some tail).
Proof.
  intros s w. split; [reflexivity|]. split; [reflexivity|].
  rewrite escapeLike_single_pass. split.
  - induction s as [|x s IH]; [reflexivity|].
    simpl. now rewrite like_well_escaped_like_unit.
  - intros tail. induction s as [|x s IH]; [reflexivity|].
    simpl. now rewrite append_assoc, after_closing_quote_like_unit.
Qed.

(** ** Further properties of the template tag *)

Lemma join_strings_empty_sep_cons s rest :
  join_strings "" (s :: rest) = s ++ join_strings "" rest.
Proof. destruct rest; simpl; [now rewrite append_nil_r|reflexivity]. Qed.

Lemma soql_turn_return escapeValue strings values acc i :
  soql_turn escapeValue strings values (Return acc) i
  = soql_step escapeValue strings values acc i.
Proof. reflexivity. Qed.

Lemma soql_loop_values_exhausted escapeValue values rest :
  forall done_s acc,
    (List.length values <= List.length done_s)%nat ->
    fold_left (soql_turn escapeValue (done_s ++ rest) values)
              (seq (List.length done_s) (List.length rest))
              (Return acc)
    = Return (acc ++ join_strings "" rest).
Proof.
  induction rest as [|s rest IH]; intros done_s acc Hle.
  - simpl. now rewrite append_nil_r.
  - cbn [List.length]. rewrite fold_left_seq_head, soql_turn_return.
    unfold soql_step. rewrite nth_middle.
    replace (List.length done_s <? List.length values)%nat with false
      by (symmetry; apply Nat.ltb_ge; lia).
    replace (done_s ++ s :: rest)%list with ((done_s ++ [s]) ++ rest)%list
      by (now rewrite <- app_assoc).
    replace (S (List.length done_s)) with (List.length (done_s ++ [s]))
      by (rewrite length_app; simpl; lia).
    rewrite IH by (rewrite length_app; simpl; lia).
    now rewrite join_strings_empty_sep_cons, append_assoc.
Qed.

Lemma soql_loop_general escapeValue rest_s :
  forall done_s done_v rest_v acc,
    List.length done_s = List.length done_v ->
    fold_left (soql_turn escapeValue (done_s ++ rest_s) (done_v ++ rest_v))
              (seq (List.length done_s) (List.length rest_s))
              (Return acc)
    = (tail <- weave escapeValue rest_s rest_v ;; Return (acc ++ tail)).
Proof.
  induction rest_s as [|s rest_s IH]; intros done_s done_v rest_v acc Hd.
  - simpl. now rewrite append_nil_r.
  - destruct rest_v as [|v rest_v].
    + rewrite soql_loop_values_exhausted by (rewrite app_nil_r; lia).
      cbn [weave bind]. now rewrite join_strings_empty_sep_cons.
    + cbn [List.length weave]. rewrite fold_left_seq_head, soql_turn_return.
      unfold soql_step. rewrite nth_middle.
      replace (List.length done_s <? List.length (done_v ++ v :: rest_v))%nat with true
        by (symmetry; apply Nat.ltb_lt; rewrite length_app; simpl; lia).
      replace (nth (List.length done_s) (done_v ++ v :: rest_v) VUndefined) with v
        by (rewrite Hd; symmetry; apply nth_middle).
      destruct (escapeValue v true) as [escaped|e|]; cbn [bind].
      * replace (done_s ++ s :: rest_s)%list with ((done_s ++ [s]) ++ rest_s)%list
          by (now rewrite <- app_assoc).
        replace (done_v ++ v :: rest_v)%list with ((done_v ++ [v]) ++ rest_v)%list
          by (now rewrite <- app_assoc).
        replace (S (List.length done_s)) with (List.length (done_s ++ [s]))
          by (rewrite length_app; simpl; lia).
        rewrite IH by (rewrite !length_app; simpl; lia).
        destruct (weave escapeValue rest_s rest_v); cbn [bind];
          [|reflexivity|reflexivity].
        now rewrite !append_assoc.
      * apply soql_loop_stops_on_throw.
      * apply soql_loop_stops_on_illtyped.
Qed.

Lemma soql_is_weave escapeValue strings values :
  soql escapeValue strings values = weave escapeValue strings values.
Proof.
  unfold soql.
  pose proof (soql_loop_general escapeValue strings [] [] values "" eq_refl) as H.
  simpl in H. rewrite H.
  now destruct (weave escapeValue strings values).
Qed.

(** X7. Called with any number of segments and any number of values,
    [soql] weaves them from the left for as long as both last: when the
    values run out first the remaining segments are appended as they
    are, and with no values at all the result is the segments joined. *)
Theorem soql_with_any_lengths :
  forall (escapeValue : JsValue -> bool -> Outcome string)
         (strings : list string) (values : list JsValue),
    soql escapeValue strings values = weave escapeValue strings values
    /\ soql escapeValue strings [] = Return (join_strings "" strings)
    /\ soql escapeValue [] values = Return "".
Proof.
  intros escapeValue strings values.
  split; [apply soql_is_weave|]. split; [|reflexivity].
  rewrite soql_is_weave. destruct strings as [|s strings]; [reflexivity|].
  cbn [weave]. now rewrite join_strings_empty_sep_cons.
Qed.

Lemma weave_ignores_extra escapeValue strings :
  forall values extra,
    List.length values = List.length strings ->
    weave escapeValue strings (values ++ extra) = weave escapeValue strings values.
Proof.
  induction strings as [|s strings IH]; intros [|v values] extra Hl;
    try discriminate; [reflexivity|].
  cbn [app weave]. destruct (escapeValue v true); cbn [bind]; try reflexivity.
  rewrite IH by (simpl in Hl; lia). reflexivity.
Qed.

(** X8. Values beyond the number of segments are never looked at: with
    as many values as segments, any further values leave the result
    unchanged, even values that would make the escaper throw. *)
Theorem soql_ignores_values_past_the_segments :
  forall (escapeValue : JsValue -> bool -> Outcome string)
         (strings : list string) (values extra : list JsValue),
    List.length values = List.length strings ->
    soql escapeValue strings (values ++ extra) = soql escapeValue strings values.
Proof.
  intros escapeValue strings values extra Hl.
  rewrite !soql_is_weave. now apply weave_ignores_extra.
Qed.

Lemma soql_ignores_values_past_the_segments_witness :
  List.length [VString "a"] = List.length ["x = "]
  /\ soql SymbolVariant.escapeValue ["x = "] ([VString "a"] ++ [VNumber S754_nan; VArray []])
     = soql SymbolVariant.escapeValue ["x = "] [VString "a"].
Proof.
  split; [reflexivity|].
  apply (soql_ignores_values_past_the_segments
           SymbolVariant.escapeValue ["x = "] [VString "a"]
           [VNumber S754_nan; VArray []]).
  reflexivity.
Defined.

Lemma weave_splits escapeValue segsA :
  forall valsA a b restB valsB,
    List.length segsA = List.length valsA ->
    weave escapeValue (segsA ++ (a ++ b) :: restB) (valsA ++ valsB)
    = (ra <- weave escapeValue (segsA ++ [a]) valsA ;;
       rb <- weave escapeValue (b :: restB) valsB ;;
       Return (ra ++ rb)).
Proof.
  induction segsA as [|s segsA IH]; intros [|v valsA] a b restB valsB Hl;
    try discriminate.
  - cbn [app weave bind join_strings]. rewrite append_nil_r.
    destruct valsB as [|w valsB]; cbn [bind].
    + now rewrite append_assoc.
    + destruct (escapeValue w true); cbn [bind]; try reflexivity.
      destruct (weave escapeValue restB valsB); cbn [bind]; try reflexivity.
      now rewrite append_assoc.
  - specialize (IH valsA a b restB valsB).
    remember (weave escapeValue (b :: restB) valsB) as right_piece.
    cbn [app weave]. destruct (escapeValue v true) as [e| |]; cbn [bind];
      try reflexivity.
    rewrite IH by (simpl in Hl; lia).
    destruct (weave escapeValue (segsA ++ [a]) valsA); cbn [bind]; try reflexivity.
    destruct right_piece; cbn [bind]; try reflexivity.
    now rewrite !append_assoc.
Qed.

(** X9. Templates compose by concatenation: a template cut in two at
    any point inside a segment gives, piece by piece, two texts whose
    concatenation is the text of the whole template; a failure in the
    left piece comes first. *)
Theorem soql_of_a_split_template :
  forall (escapeValue : JsValue -> bool -> Outcome string)
         (segsA : list string) (valsA : list JsValue) (a b : string)
         (restB : list string) (valsB : list JsValue),
    List.length segsA = List.length valsA ->
    soql escapeValue (segsA ++ (a ++ b) :: restB) (valsA ++ valsB)
    = (ra <- soql escapeValue (segsA ++ [a]) valsA ;;
       rb <- soql escapeValue (b :: restB) valsB ;;
       Return (ra ++ rb)).
Proof.
  intros. rewrite !soql_is_weave. now apply weave_splits.
Qed.

Lemma soql_of_a_split_template_witness :
  List.length ["SELECT Id FROM Account WHERE Name = "] = List.length [VString "Acme"]
  /\ soql SymbolVariant.escapeValue
          (["SELECT Id FROM Account WHERE Name = "]
           ++ (" AND " ++ "IsActive = ")%string :: [""])%list
          ([VString "Acme"] ++ [VBoolean true])
     = (ra <- soql SymbolVariant.escapeValue
                   (["SELECT Id FROM Account WHERE Name = "] ++ [" AND "])%list
                   [VString "Acme"] ;;
        rb <- soql SymbolVariant.escapeValue ("IsActive = " :: [""]) [VBoolean true] ;;
        Return (ra ++ rb)).
Proof.
  split; [reflexivity|].
  apply (soql_of_a_split_template SymbolVariant.escapeValue
           ["SELECT Id FROM Account WHERE Name = "] [VString "Acme"]
           " AND " "IsActive = " [""] [VBoolean true]).
  reflexivity.
Defined.

(** X10. A string interpolated into a template becomes one quoted
    literal that the payload cannot leave: the text is the segment, an
    opening quote, the escaped string, a closing quote and the next
    segment, and reading on from the opening quote the first unescaped
    quote is the closing one, whatever the string holds. *)
Theorem soql_string_slot_is_closed :
  forall (before after s : string),
    soql SymbolVariant.escapeValue [before; after] [VString s]
    = Return (before ++ "'" ++ escapeString s ++ "'" ++ after)
    /\ soql FieldVariant.escapeValue [before; after] [VString s]
       = Return (before ++ "'" ++ escapeString s ++ "'" ++ after)
    /\ after_closing_quote (escapeString s ++ "'" ++ after) = Some after.
Proof.
  intros before after s.
  rewrite !(soql_is_interleave _ before [VString s] [after] eq_refl).
  cbn [interleave].
  change (SymbolVariant.escapeValue (VString s) true)
    with (@Return string (quoted_if true (escapeString s))).
  change (FieldVariant.escapeValue (VString s) true)
    with (@Return string (quoted_if true (escapeString s))).
  cbn [bind quoted_if].
  split; [|split].
  - now rewrite !append_assoc.
  - now rewrite !append_assoc.
  - rewrite escapeString_single_pass. apply (closing_quote_flat s after).
Qed.

(** ** Further properties of [join] and of the date-only formatter *)

Lemma raws_escape_to_their_text ss :
  Forall2 (fun v e => SymbolVariant.escapeValue v true = Return e)
          (map SymbolVariant.raw ss) ss.
Proof. induction ss as [|s ss IH]; constructor; [reflexivity|exact IH]. Qed.

(** X11. [join] escapes every value with default quoting and wraps the
    joined text as a raw value, so a template inserts it without further
    quoting; fragments made with [raw] are joined verbatim; the empty
    list is accepted and gives the empty raw value; a value that throws,
    after values that escape, makes [join] throw the same exception. *)
Theorem join_builds_a_raw_value :
  (forall values escaped separator,
      Forall2 (fun v e => SymbolVariant.escapeValue v true = Return e) values escaped ->
      SymbolVariant.join values separator
      = Return (SymbolVariant.raw (join_strings separator escaped))
      /\ (forall before after,
             (joined <- SymbolVariant.join values separator ;;
              soql SymbolVariant.escapeValue [before; after] [joined])
             = Return (before ++ join_strings separator escaped ++ after)))
  /\ (forall fragments separator,
         SymbolVariant.join (map SymbolVariant.raw fragments) separator
         = Return (SymbolVariant.raw (join_strings separator fragments)))
  /\ (forall separator, SymbolVariant.join [] separator = Return (SymbolVariant.raw ""))
  /\ (forall before escaped bad e after separator,
         Forall2 (fun v r => SymbolVariant.escapeValue v true = Return r) before escaped ->
         SymbolVariant.escapeValue bad true = Throw e ->
         SymbolVariant.join (before ++ bad :: after) separator = Throw e).
Proof.
  assert (J : forall values escaped separator,
             Forall2 (fun v e => SymbolVariant.escapeValue v true = Return e)
                     values escaped ->
             SymbolVariant.join values separator
             = Return (SymbolVariant.raw (join_strings separator escaped))).
  { intros values escaped separator H. unfold SymbolVariant.join.
    now rewrite (map_outcome_all_return _ _ _ H). }
  split.
  { intros values escaped separator H. split; [now apply J|].
    intros before after. rewrite (J _ _ separator H). cbn [bind].
    now rewrite (soql_is_interleave _ before [_] [after] eq_refl). }
  split.
  { intros fragments separator. apply J, raws_escape_to_their_text. }
  split; [reflexivity|].
  intros before escaped bad e after separator Hb Hbad.
  unfold SymbolVariant.join.
  now rewrite (map_outcome_first_throw _ _ _ _ _ after Hb Hbad).
Qed.

Lemma join_builds_a_raw_value_witness :
  Forall2 (fun v e => SymbolVariant.escapeValue v true = Return e)
          [VString "O'Brien"; VBoolean true] ["'O" ++ esc QUOTE ++ "Brien'"; "true"]
  /\ SymbolVariant.join [VString "O'Brien"; VBoolean true] " AND "
     = Return (SymbolVariant.raw
                 (join_strings " AND " ["'O" ++ esc QUOTE ++ "Brien'"; "true"]))
  /\ SymbolVariant.join ([VString "a"] ++ VArray [] :: [VString "b"]) ", "
     = Throw (Error empty_array_message).
Proof.
  split; [repeat constructor|].
  split.
  { apply (proj1 join_builds_a_raw_value
             [VString "O'Brien"; VBoolean true]
             ["'O" ++ esc QUOTE ++ "Brien'"; "true"] " AND ").
    repeat constructor. }
  apply (proj2 (proj2 (proj2 join_builds_a_raw_value)) [VString "a"] ["'a'"]).
  - repeat constructor.
  - reflexivity.
Defined.

Lemma forallb_range (p : Z -> bool) (lo count : Z) :
  forallb p (map (fun k => lo + Z.of_nat k) (seq 0 (Z.to_nat count))) = true ->
  forall z, lo <= z < lo + count -> p z = true.
Proof.
  intros H z Hz. rewrite forallb_forall in H. apply H.
  apply in_map_iff. exists (Z.to_nat (z - lo)). split; [lia|].
  apply in_seq. lia.
Qed.

Lemma two_digits_padded m :
  0 <= m <= 99 -> padStart 2 "0" (decimal m) = fixed_digits 2 m.
Proof.
  intros Hm. apply String.eqb_eq.
  apply (forallb_range
           (fun z => String.eqb (padStart 2 "0" (decimal z)) (fixed_digits 2 z)) 0 100);
    [vm_compute; reflexivity | lia].
Qed.

Lemma four_digit_year y :
  1000 <= y <= 9999 -> decimal y = fixed_digits 4 y.
Proof.
  intros Hy. apply String.eqb_eq.
  apply (forallb_range (fun z => String.eqb (decimal z) (fixed_digits 4 z)) 1000 9000);
    [vm_compute; reflexivity | lia].
Qed.

Lemma short_year y :
  0 <= y <= 999 -> (String.length (decimal y) <= 3)%nat.
Proof.
  intros Hy. apply Nat.leb_le.
  apply (forallb_range (fun z => Nat.leb (String.length (decimal z)) 3) 0 1000);
    [vm_compute; reflexivity | lia].
Qed.

Lemma fixed_digits_length w : forall n, String.length (fixed_digits w n) = w.
Proof.
  induction w as [|w IH]; intros n; [reflexivity|].
  cbn [fixed_digits]. rewrite length_append_string, IH. simpl. lia.
Qed.

Lemma formatDate_fields t :
  formatDate (Some t)
  = decimal (YearFromTime t)
    ++ "-" ++ fixed_digits 2 (MonthFromTime t + 1)
    ++ "-" ++ fixed_digits 2 (DateFromTime t).
Proof.
  unfold formatDate, getUTCFullYear, getUTCMonth, getUTCDate.
  cbn [option_map String_of_integral].
  pose proof (MonthFromTime_range t). pose proof (DateFromTime_range t).
  now rewrite !two_digits_padded by lia.
Qed.

Lemma Day_of_day_start t : Day (msPerDay * Day t) = Day t.
Proof.
  unfold Day, msPerDay. rewrite Z.mul_comm. now apply Z.div_mul.
Qed.

(** X12. For every valid instant [formatDate] returns the UTC year in
    decimal, the month counted from one and the day of the month, both
    as two digits within their calendar ranges, separated by hyphens;
    the time of day plays no part: the start of the same UTC day gives
    the same text. *)
Theorem formatDate_renders_the_utc_day :
  forall t : Z,
    formatDate (Some t)
    = decimal (YearFromTime t)
      ++ "-" ++ fixed_digits 2 (MonthFromTime t + 1)
      ++ "-" ++ fixed_digits 2 (DateFromTime t)
    /\ 1 <= MonthFromTime t + 1 <= 12
    /\ 1 <= DateFromTime t <= 31
    /\ formatDate (Some (msPerDay * Day t)) = formatDate (Some t).
Proof.
  intros t. split; [apply formatDate_fields|].
  pose proof (MonthFromTime_range t). pose proof (DateFromTime_range t).
  split; [lia|]. split; [lia|].
  rewrite !formatDate_fields.
  unfold DateFromTime, MonthFromTime, DayWithinYear, InLeapYear, YearFromTime.
  now rewrite Day_of_day_start.
Qed.

(** X13. For an instant whose UTC year has four digits (1000 to 9999)
    the two formatters agree on the date: [formatDate] gives the ten
    units YYYY-MM-DD, and [formatDateTime] gives that same text followed
    by [T], the time and [Z]. *)
Theorem formatters_agree_on_four_digit_years :
  forall t : Z,
    1000 <= YearFromTime t <= 9999 ->
    String.length (formatDate (Some t)) = 10%nat
    /\ formatDateTime (Some t)
       = Return (formatDate (Some t)
                 ++ "T" ++ fixed_digits 2 (HourFromTime t)
                 ++ ":" ++ fixed_digits 2 (MinFromTime t)
                 ++ ":" ++ fixed_digits 2 (SecFromTime t)
                 ++ "Z").
Proof.
  intros t Hy. rewrite formatDate_fields, four_digit_year by lia. split.
  - rewrite !length_append_string, !fixed_digits_length. reflexivity.
  - rewrite formatDateTime_fields. unfold iso_year.
    replace ((0 <=? YearFromTime t) && (YearFromTime t <=? 9999)) with true
      by (symmetry; apply andb_true_intro; split; apply Z.leb_le; lia).
    now rewrite !append_assoc.
Qed.

Lemma formatters_agree_on_four_digit_years_witness :
  1000 <= YearFromTime 1710513045123 <= 9999
  /\ String.length (formatDate (Some 1710513045123)) = 10%nat.
Proof.
  split; [vm_compute; split; discriminate|].
  apply (formatters_agree_on_four_digit_years 1710513045123).
  vm_compute. split; discriminate.
Defined.

(** X14. [formatDate] does not pad the year: for an instant whose UTC
    year lies between 0 and 999 its text is shorter than the ten units
    of YYYY-MM-DD, whereas [formatDateTime] still starts with four year
    digits. *)
Theorem formatDate_leaves_short_years_unpadded :
  forall t : Z,
    0 <= YearFromTime t <= 999 ->
    (String.length (formatDate (Some t)) < 10)%nat
    /\ formatDateTime (Some t)
       = Return (fixed_digits 4 (YearFromTime t)
                 ++ "-" ++ fixed_digits 2 (MonthFromTime t + 1)
                 ++ "-" ++ fixed_digits 2 (DateFromTime t)
                 ++ "T" ++ fixed_digits 2 (HourFromTime t)
                 ++ ":" ++ fixed_digits 2 (MinFromTime t)
                 ++ ":" ++ fixed_digits 2 (SecFromTime t)
                 ++ "Z").
Proof.
  intros t Hy. split.
  - rewrite formatDate_fields, !length_append_string, !fixed_digits_length.
    pose proof (short_year (YearFromTime t) Hy). simpl. lia.
  - rewrite formatDateTime_fields. unfold iso_year.
    replace ((0 <=? YearFromTime t) && (YearFromTime t <=? 9999)) with true;
      [reflexivity|].
    symmetry. apply andb_true_intro. split; apply Z.leb_le; lia.
Qed.

Lemma formatDate_leaves_short_years_unpadded_witness :
  0 <= YearFromTime (-30610224000001) <= 999
  /\ (String.length (formatDate (Some (-30610224000001)%Z)) < 10)%nat.
Proof.
  split; [vm_compute; split; discriminate|].
  apply (formatDate_leaves_short_years_unpadded (-30610224000001)).
  vm_compute. split; discriminate.
Defined.

(** ** Further properties of the value escaper *)

(** X15. The [date] constructor rejects an invalid Date with the error
    [Invalid Date object]; the wrapper it builds from a valid instant is
    recognised by the date guard alone, is escaped to the date-only text
    of [formatDate] whatever the quoting flag, is inserted as it is by a
    template, and is rejected as an unsupported type by the version of
    the escaper that has field markers. *)
Theorem date_wrapper_is_escaped_as_date_only :
  SymbolVariant.date None = Throw (Error "Invalid Date object")
  /\ (forall (t : Z) (wrapStrings : bool),
         (d <- SymbolVariant.date (Some t) ;; SymbolVariant.escapeValue d wrapStrings)
         = Return (formatDate (Some t))
         /\ (d <- SymbolVariant.date (Some t) ;;
             Return (SymbolVariant.isDateValue d
                     && negb (SymbolVariant.isRawValue d)
                     && negb (SymbolVariant.isLikeValue d)))
            = Return true
         /\ (d <- SymbolVariant.date (Some t) ;; FieldVariant.escapeValue d wrapStrings)
            = Throw (Error "Unsupported SOQL value type: object")
         /\ (forall before after,
                (d <- SymbolVariant.date (Some t) ;;
                 soql SymbolVariant.escapeValue [before; after] [d])
                = Return (before ++ formatDate (Some t) ++ after))).
Proof.
  split; [reflexivity|].
  intros t w. repeat split.
  intros before after. cbn [SymbolVariant.date isNaN getTime bind].
  now rewrite (soql_is_interleave _ before [_] [after] eq_refl).
Qed.

Lemma JsValue_array_ind (P : JsValue -> Prop) :
  P VUndefined ->
  P VNull ->
  (forall b, P (VBoolean b)) ->
  (forall n, P (VNumber n)) ->
  (forall s, P (VString s)) ->
  (forall t, P (VDate t)) ->
  (forall items, Forall P items -> P (VArray items)) ->
  (forall props, P (VObject props)) ->
  (forall z, P (VBigInt z)) ->
  (forall description, P (VSymbol description)) ->
  P VFunction ->
  forall v, P v.
Proof.
  intros Hu Hnull Hb Hn Hs Ht Harr Hobj Hbig Hsym Hfun.
  fix IH 1.
  intros [ | |b|n|s|t|items|props|z|description| ];
    [exact Hu|exact Hnull|apply Hb|apply Hn|apply Hs|apply Ht| |apply Hobj
    |apply Hbig|apply Hsym|exact Hfun].
  apply Harr.
  induction items as [|item items IHitems]; constructor; [apply IH | exact IHitems].
Qed.

Lemma map_outcome_throw_origin {A B : Type} (f : A -> Outcome B) items e :
  map_outcome f items = Throw e ->
  exists item, In item items /\ f item = Throw e.
Proof.
  induction items as [|x items IH]; cbn [map_outcome]; [discriminate|].
  destruct (f x) as [b|e'|] eqn:Hx; cbn [bind]; [|intros H|discriminate].
  - destruct (map_outcome f items) as [bs|e'|]; cbn [bind]; try discriminate.
    intros H. destruct (IH H) as (item & Hin & Hitem).
    exists item. split; [now right|exact Hitem].
  - exists x. split; [now left|congruence].
Qed.

Lemma prefix_append p x : prefix p (p ++ x) = true.
Proof.
  induction p as [|c p IH]; simpl; [now destruct x|].
  destruct (ascii_dec c c); [exact IH|contradiction].
Qed.

Lemma number_error_is_escaper_error n :
  is_escaper_error (Error ("Invalid SOQL number value: " ++ Number_toString n)) = true.
Proof.
  unfold is_escaper_error. rewrite prefix_append.
  now rewrite orb_true_r.
Qed.

Lemma map_outcome_text_or_error {A B : Type} (f : A -> Outcome B) items :
  Forall (fun x => match f x with
                   | Return _ => True
                   | Throw e => is_escaper_error e = true
                   | IllTyped => False
                   end) items ->
  match map_outcome f items with
  | Return _ => True
  | Throw e => is_escaper_error e = true
  | IllTyped => False
  end.
Proof.
  induction 1 as [|x items Hx _ IH]; [exact I|].
  cbn [map_outcome]. destruct (f x); cbn [bind]; [|exact Hx|exact Hx].
  cbn [map_outcome] in IH. now destruct (map_outcome f items).
Qed.

Lemma parenthesised_text_or_error (c : Outcome (list string)) :
  match c with
  | Return _ => True
  | Throw e => is_escaper_error e = true
  | IllTyped => False
  end ->
  text_or_escaper_error
    (escaped <- c ;; Return ("(" ++ join_strings ", " escaped ++ ")")).
Proof. now destruct c. Qed.

Lemma number_branch_text_or_error n :
  text_or_escaper_error
    (if negb (Number_isFinite n)
     then Throw (Error ("Invalid SOQL number value: " ++ Number_toString n))
     else Return (Number_toString n)).
Proof.
  destruct (Number_isFinite n); cbn [negb text_or_escaper_error];
    [exact I|apply number_error_is_escaper_error].
Qed.

Lemma date_branch_text_or_error t :
  text_or_escaper_error
    (if isNaN (getTime t) then Throw (Error "Invalid Date object")
     else formatDateTime t).
Proof.
  destruct t as [t|]; cbn [isNaN getTime].
  - rewrite formatDateTime_fields. exact I.
  - reflexivity.
Qed.

Lemma typed_string_payload val (k : string -> string) :
  holds_string val = true ->
  text_or_escaper_error (value <- value_as_string val ;; Return (k value)).
Proof.
  unfold holds_string, value_as_string.
  destruct (get_property (StringKey "value") val); try discriminate. intros _. exact I.
Qed.

Lemma typed_Date_payload val (k : TimeValue -> string) :
  holds_Date val = true ->
  text_or_escaper_error (value <- value_as_Date val ;; Return (k value)).
Proof.
  unfold holds_Date, value_as_Date.
  destruct (get_property (StringKey "value") val); try discriminate. intros _. exact I.
Qed.

Lemma typed_raw_payload val :
  holds_string val = true -> text_or_escaper_error (value_as_string val).
Proof.
  unfold holds_string, value_as_string.
  destruct (get_property (StringKey "value") val); try discriminate. intros _. exact I.
Qed.

Lemma symbol_typed_outcome val :
  symbol_payloads_typed val = true ->
  forall wrapStrings,
    text_or_escaper_error (SymbolVariant.escapeValue val wrapStrings).
Proof.
  induction val as [ | |b|n|s|t|items IH|props|z|description| ]
    using JsValue_array_ind; intros Hty w; try exact I; try reflexivity.
  - apply number_branch_text_or_error.
  - apply date_branch_text_or_error.
  - change (SymbolVariant.escapeValue (VArray items) w)
      with (escapeArray_throwing SymbolVariant.escapeValue items).
    unfold escapeArray_throwing.
    destruct (List.length items =? 0)%nat; [reflexivity|].
    apply parenthesised_text_or_error, map_outcome_text_or_error.
    cbn [symbol_payloads_typed] in Hty. rewrite forallb_forall in Hty.
    rewrite Forall_forall in IH. apply Forall_forall.
    intros x Hx. apply (IH x Hx (Hty x Hx) true).
  - cbn [SymbolVariant.escapeValue is_null is_undefined orb].
    cbn [symbol_payloads_typed] in Hty.
    destruct (SymbolVariant.isRawValue (VObject props));
      [now apply typed_raw_payload|].
    destruct (SymbolVariant.isLikeValue (VObject props));
      [now apply typed_string_payload|].
    destruct (SymbolVariant.isDateValue (VObject props));
      [now apply typed_Date_payload|].
    reflexivity.
Qed.

Lemma field_typed_outcome val :
  field_payloads_typed val = true ->
  forall wrapStrings,
    text_or_escaper_error (FieldVariant.escapeValue val wrapStrings).
Proof.
  induction val as [ | |b|n|s|t|items IH|props|z|description| ]
    using JsValue_array_ind; intros Hty w; try exact I; try reflexivity.
  - apply number_branch_text_or_error.
  - apply date_branch_text_or_error.
  - change (FieldVariant.escapeValue (VArray items) w)
      with (escapeArray_placeholder FieldVariant.escapeValue items).
    unfold escapeArray_placeholder.
    destruct (List.length items =? 0)%nat; [exact I|].
    apply parenthesised_text_or_error, map_outcome_text_or_error.
    cbn [field_payloads_typed] in Hty. rewrite forallb_forall in Hty.
    rewrite Forall_forall in IH. apply Forall_forall.
    intros x Hx. apply (IH x Hx (Hty x Hx) true).
  - cbn [FieldVariant.escapeValue is_null is_undefined orb].
    cbn [field_payloads_typed] in Hty.
    destruct (FieldVariant.isRawValue (VObject props));
      [now apply typed_raw_payload|].
    destruct (FieldVariant.isLikeValue (VObject props));
      [now apply typed_string_payload|].
    reflexivity.
Qed.

Lemma soql_slot_text_or_error escapeValue before after val :
  text_or_escaper_error (escapeValue val true) ->
  text_or_escaper_error (soql escapeValue [before; after] [val]).
Proof.
  rewrite (soql_is_interleave _ before [val] [after] eq_refl). cbn [interleave].
  now destruct (escapeValue val true).
Qed.

(** X16. On any value whose wrappers hold payloads of their declared
    types, at any nesting depth, objects, bigints, symbols and functions
    included, the escaper either returns a text or throws one of its
    own errors: the empty array error (the version with symbol
    markers), [Invalid Date object], [Invalid SOQL number value: ...]
    and [Unsupported SOQL value type: ...] followed by [object],
    [bigint], [symbol] or [function].  The RangeError of [toISOString]
    on an invalid Date never gets out, because the validity check comes
    first; a template with such a value throws nothing else either. *)
Theorem escaper_throws_only_its_own_errors :
  forall (val : JsValue) (wrapStrings : bool),
    (symbol_payloads_typed val = true ->
     text_or_escaper_error (SymbolVariant.escapeValue val wrapStrings)
     /\ forall before after,
         text_or_escaper_error (soql SymbolVariant.escapeValue [before; after] [val]))
    /\ (field_payloads_typed val = true ->
        text_or_escaper_error (FieldVariant.escapeValue val wrapStrings)
        /\ forall before after,
            text_or_escaper_error (soql FieldVariant.escapeValue [before; after] [val])).
Proof.
  intros val w. split; intros Hty.
  - split; [now apply symbol_typed_outcome|].
    intros before after. apply soql_slot_text_or_error.
    now apply symbol_typed_outcome.
  - split; [now apply field_typed_outcome|].
    intros before after. apply soql_slot_text_or_error.
    now apply field_typed_outcome.
Qed.

Lemma escaper_throws_only_its_own_errors_witness :
  symbol_payloads_typed (VArray [VString "a"; VArray [VBigInt 5]; VDate None]) = true
  /\ text_or_escaper_error
       (SymbolVariant.escapeValue
          (VArray [VString "a"; VArray [VBigInt 5]; VDate None]) false)
  /\ SymbolVariant.escapeValue (VArray [VString "a"; VArray [VBigInt 5]; VDate None]) false
     = Throw (Error "Unsupported SOQL value type: bigint")
  /\ SymbolVariant.escapeValue (VArray [VString "a"; VDate None]) false
     = Throw (Error "Invalid Date object")
  /\ toISOString None = Throw (RangeError "Invalid time value")
  /\ field_payloads_typed (VArray [VFunction]) = true
  /\ text_or_escaper_error (FieldVariant.escapeValue (VArray [VFunction]) true).
Proof.
  split; [reflexivity|].
  split.
  { exact (proj1 (proj1 (escaper_throws_only_its_own_errors
                           (VArray [VString "a"; VArray [VBigInt 5]; VDate None]) false)
                        eq_refl)). }
  split; [reflexivity|]. split; [reflexivity|]. split; [reflexivity|].
  split; [reflexivity|].
  exact (proj1 (proj2 (escaper_throws_only_its_own_errors (VArray [VFunction]) true)
                  eq_refl)).
Defined.

Lemma map_outcome_map {A B C : Type} (f : B -> Outcome C) (g : A -> B) items :
  map_outcome f (map g items) = map_outcome (fun x => f (g x)) items.
Proof.
  induction items as [|x items IH]; [reflexivity|].
  cbn [map map_outcome]. destruct (f (g x)); cbn [bind]; try reflexivity.
  cbn [map_outcome] in IH. now rewrite IH.
Qed.

Lemma map_outcome_decided {A B : Type} (f : A -> Outcome B) (p : A -> bool) items :
  Forall (fun x => if p x then exists r, f x = Return r
                   else exists e, f x = Throw e) items ->
  if forallb p items then exists rs, map_outcome f items = Return rs
  else exists e, map_outcome f items = Throw e.
Proof.
  induction 1 as [|x items Hx _ IH]; [now exists []|].
  cbn [forallb map_outcome]. destruct (p x); cbn [andb].
  - destruct Hx as [r Hr]. rewrite Hr. cbn [bind].
    destruct (forallb p items).
    + destruct IH as [rs Hrs]. exists (r :: rs).
      cbn [map_outcome] in Hrs. now rewrite Hrs.
    + destruct IH as [e He]. exists e.
      cbn [map_outcome] in He. now rewrite He.
  - destruct Hx as [e He]. exists e. now rewrite He.
Qed.

Lemma SymbolSoqlValue_nested_ind (P : SymbolSoqlValue -> Prop) :
  (forall s, P (SsString s)) ->
  (forall n, P (SsNumber n)) ->
  (forall b, P (SsBoolean b)) ->
  (forall t, P (SsDate t)) ->
  P SsNull ->
  P SsUndefined ->
  (forall value, P (SsRaw value)) ->
  (forall value, P (SsLike value)) ->
  (forall value, P (SsDateOnly value)) ->
  (forall items, Forall P items -> P (SsArray items)) ->
  forall v, P v.
Proof.
  intros Hs Hn Hb Ht Hnull Hundef Hraw Hlike Hdate Harr.
  fix IH 1.
  intros [s|n|b|t| | |value|value|value|items];
    [apply Hs|apply Hn|apply Hb|apply Ht|exact Hnull|exact Hundef
    |apply Hraw|apply Hlike|apply Hdate|].
  apply Harr.
  induction items as [|item items IHitems]; constructor; [apply IH | exact IHitems].
Qed.

Lemma symbol_union_escapable (v : SymbolSoqlValue) :
  forall wrapStrings,
    if escapable_symbol_union v
    then exists s, SymbolVariant.escapeValue (inject_symbol_union v) wrapStrings = Return s
    else exists e, SymbolVariant.escapeValue (inject_symbol_union v) wrapStrings = Throw e.
Proof.
  induction v as [s|n|b|t| | |value|value|value|items IH]
    using SymbolSoqlValue_nested_ind; intros w; cbn [escapable_symbol_union].
  - eexists; reflexivity.
  - destruct n as [sg|sg| |sg m e]; cbn [Number_isFinite]; eexists; reflexivity.
  - eexists; reflexivity.
  - destruct t as [t|]; cbn [isNaN getTime negb].
    + eexists. cbn [inject_symbol_union]. apply (formatDateTime_fields t).
    + eexists; reflexivity.
  - eexists; reflexivity.
  - eexists; reflexivity.
  - eexists; reflexivity.
  - eexists; reflexivity.
  - eexists; reflexivity.
  - cbn [inject_symbol_union].
    change (SymbolVariant.escapeValue (VArray (map inject_symbol_union items)) w)
      with (escapeArray_throwing SymbolVariant.escapeValue
              (map inject_symbol_union items)).
    unfold escapeArray_throwing. rewrite length_map, map_outcome_map.
    destruct items as [|item items]; [eexists; reflexivity|].
    cbn [List.length Nat.eqb andb negb].
    pose proof (map_outcome_decided
                  (fun x => SymbolVariant.escapeValue (inject_symbol_union x) true)
                  escapable_symbol_union (item :: items)) as D.
    assert (F : Forall
                  (fun x => if escapable_symbol_union x
                            then exists r, SymbolVariant.escapeValue
                                             (inject_symbol_union x) true = Return r
                            else exists e, SymbolVariant.escapeValue
                                             (inject_symbol_union x) true = Throw e)
                  (item :: items)).
    { rewrite Forall_forall in IH. apply Forall_forall. intros x Hx. apply IH, Hx. }
    specialize (D F).
    destruct (forallb escapable_symbol_union (item :: items)).
    + destruct D as [rs Hrs]. rewrite Hrs. eexists; reflexivity.
    + destruct D as [e He]. rewrite He. eexists; reflexivity.
Qed.

Lemma field_escapable (v : SoqlValue) :
  forall wrapStrings,
    if escapable false v
    then exists s, FieldVariant.escapeValue (FieldVariant.inject v) wrapStrings = Return s
    else exists e, FieldVariant.escapeValue (FieldVariant.inject v) wrapStrings = Throw e.
Proof.
  induction v as [s|n|b|t| | |value|value|items IH] using SoqlValue_nested_ind;
    intros w; cbn [escapable].
  - eexists; reflexivity.
  - destruct n as [sg|sg| |sg m e]; cbn [Number_isFinite]; eexists; reflexivity.
  - eexists; reflexivity.
  - destruct t as [t|]; cbn [isNaN getTime negb].
    + eexists. cbn [FieldVariant.inject]. apply (formatDateTime_fields t).
    + eexists; reflexivity.
  - eexists; reflexivity.
  - eexists; reflexivity.
  - eexists; reflexivity.
  - eexists; reflexivity.
  - cbn [FieldVariant.inject andb negb].
    change (FieldVariant.escapeValue (VArray (map FieldVariant.inject items)) w)
      with (escapeArray_placeholder FieldVariant.escapeValue
              (map FieldVariant.inject items)).
    unfold escapeArray_placeholder. rewrite length_map, map_outcome_map.
    destruct items as [|item items]; [eexists; reflexivity|].
    cbn [List.length Nat.eqb].
    pose proof (map_outcome_decided
                  (fun x => FieldVariant.escapeValue (FieldVariant.inject x) true)
                  (escapable false) (item :: items)) as D.
    assert (F : Forall
                  (fun x => if escapable false x
                            then exists r, FieldVariant.escapeValue
                                             (FieldVariant.inject x) true = Return r
                            else exists e, FieldVariant.escapeValue
                                             (FieldVariant.inject x) true = Throw e)
                  (item :: items)).
    { rewrite Forall_forall in IH. apply Forall_forall. intros x Hx. apply IH, Hx. }
    specialize (D F).
    destruct (forallb (escapable false) (item :: items)).
    + destruct D as [rs Hrs]. rewrite Hrs. eexists; reflexivity.
    + destruct D as [e He]. rewrite He. eexists; reflexivity.
Qed.

(** X17. On a value of the union its version declares, the escaper
    returns a text exactly when every number in the value is finite and
    every bare Date valid, at any depth, and, in the version with symbol
    markers, no array is empty; otherwise it throws.  Strings, booleans,
    null, undefined, raw values and LIKE patterns always escape, and so
    does a date-only wrapper whatever Date it holds: around an invalid
    Date it gives [NaN-NaN-NaN] and no error. *)
Theorem escaper_fails_exactly_on_bad_payloads :
  (forall (v : SymbolSoqlValue) (wrapStrings : bool),
      if escapable_symbol_union v
      then exists s,
          SymbolVariant.escapeValue (inject_symbol_union v) wrapStrings = Return s
      else exists e,
          SymbolVariant.escapeValue (inject_symbol_union v) wrapStrings = Throw e)
  /\ (forall (v : SoqlValue) (wrapStrings : bool),
         if escapable false v
         then exists s,
             FieldVariant.escapeValue (FieldVariant.inject v) wrapStrings = Return s
         else exists e,
             FieldVariant.escapeValue (FieldVariant.inject v) wrapStrings = Throw e)
  /\ (forall wrapStrings,
         SymbolVariant.escapeValue (inject_symbol_union (SsDateOnly None)) wrapStrings
         = Return "NaN-NaN-NaN").
Proof.
  split; [intros v w; apply symbol_union_escapable|].
  split; [intros v w; apply field_escapable|].
  reflexivity.
Qed.

(** ** String literals in the escaped text *)

Lemma scan_literals_app_bounded n :
  forall a, (String.length a <= n)%nat ->
  forall inside inside' b,
    scan_literals inside a = Some inside' ->
    scan_literals inside (a ++ b) = scan_literals inside' b.
Proof.
  induction n as [|n IH]; intros a Hl inside inside' b H.
  - destruct a; [|simpl in Hl; lia]. simpl in H. now injection H as <-.
  - destruct a as [|c a]; [simpl in H; now injection H as <-|].
    simpl in Hl. cbn [scan_literals append] in *.
    destruct inside.
    + destruct (Ascii.eqb c BACKSLASH).
      * destruct a as [|d a]; [discriminate|].
        cbn [append]. simpl in Hl. apply IH; [lia|exact H].
      * destruct (Ascii.eqb c QUOTE); apply IH; solve [lia|exact H].
    + destruct (Ascii.eqb c QUOTE); apply IH; solve [lia|exact H].
Qed.

Lemma scan_literals_app a inside inside' b :
  scan_literals inside a = Some inside' ->
  scan_literals inside (a ++ b) = scan_literals inside' b.
Proof. apply (scan_literals_app_bounded (String.length a)). lia. Qed.

Lemma scan_literals_no_quote t :
  occurs QUOTE t = false -> scan_literals false t = Some false.
Proof.
  induction t as [|c t IH]; [reflexivity|].
  cbn [occurs scan_literals]. intros H. apply orb_false_elim in H as [Hc Ht].
  rewrite Hc. now apply IH.
Qed.

Lemma scan_literals_escape_unit x t :
  scan_literals true (escape_unit x ++ t) = scan_literals true t.
Proof.
  unfold escape_unit.
  by_unit x BACKSLASH. by_unit x QUOTE. by_unit x LF.
  by_unit x CR. by_unit x TAB. by_unit x NUL.
  simpl. now rewrite !eqb_neq_false.
Qed.

Lemma scan_literals_like_unit x t :
  scan_literals true (like_unit x ++ t) = scan_literals true t.
Proof.
  unfold like_unit.
  by_unit x PERCENT. by_unit x UNDERSCORE.
  apply scan_literals_escape_unit.
Qed.

Lemma scan_literals_quoted_string s :
  scan_literals false (quoted_if true (escapeString s)) = Some false.
Proof.
  unfold quoted_if. rewrite escapeString_single_pass.
  change (scan_literals true (flat_units escape_unit s ++ "'") = Some false).
  induction s as [|x s IH]; [reflexivity|].
  cbn [flat_units]. now rewrite append_assoc, scan_literals_escape_unit.
Qed.

Lemma scan_literals_quoted_like s :
  scan_literals false (quoted_if true (escapeLike s)) = Some false.
Proof.
  unfold quoted_if. rewrite escapeLike_single_pass.
  change (scan_literals true (flat_units like_unit s ++ "'") = Some false).
  induction s as [|x s IH]; [reflexivity|].
  cbn [flat_units]. now rewrite append_assoc, scan_literals_like_unit.
Qed.

Lemma scan_literals_join parts :
  Forall (fun p => scan_literals false p = Some false) parts ->
  scan_literals false (join_strings ", " parts) = Some false.
Proof.
  induction 1 as [|p parts Hp Hrest IH]; [reflexivity|].
  destruct parts as [|q parts]; [exact Hp|].
  change (join_strings ", " (p :: q :: parts))
    with (p ++ ", " ++ join_strings ", " (q :: parts)).
  rewrite (scan_literals_app _ _ _ _ Hp).
  rewrite (scan_literals_app ", " false false _ eq_refl). exact IH.
Qed.

Lemma scan_literals_parenthesised parts :
  Forall (fun p => scan_literals false p = Some false) parts ->
  scan_literals false ("(" ++ join_strings ", " parts ++ ")") = Some false.
Proof.
  intros H.
  rewrite (scan_literals_app "(" false false _ eq_refl).
  now rewrite (scan_literals_app _ _ _ _ (scan_literals_join parts H)).
Qed.

Lemma number_units_hold_no_quote s :
  all_units number_unit s = true -> occurs QUOTE s = false.
Proof.
  induction s as [|c s IH]; [reflexivity|].
  cbn [all_units occurs]. intros H. apply andb_prop in H as [Hc Hs].
  rewrite (IH Hs), orb_false_r.
  destruct (Ascii.eqb_spec c QUOTE) as [->|]; [discriminate|reflexivity].
Qed.

Lemma no_quote_fixed_digits w : forall n, occurs QUOTE (fixed_digits w n) = false.
Proof.
  induction w as [|w IH]; intros n; [reflexivity|].
  cbn [fixed_digits]. rewrite occurs_app, IH. cbn [occurs orb].
  rewrite orb_false_r.
  destruct (Ascii.eqb_spec (digit_unit n) QUOTE) as [E|]; [|reflexivity].
  pose proof (digit_unit_is_digit n) as D. rewrite E in D. discriminate.
Qed.

Lemma no_quote_iso_year y : occurs QUOTE (iso_year y) = false.
Proof.
  unfold iso_year.
  destruct ((0 <=? y) && (y <=? 9999)); [apply no_quote_fixed_digits|].
  rewrite occurs_app, no_quote_fixed_digits. now destruct (y <? 0).
Qed.

Lemma Return_injective {A : Type} (a b : A) : Return a = Return b -> a = b.
Proof. congruence. Qed.

Lemma no_quote_date_time t s :
  formatDateTime (Some t) = Return s -> occurs QUOTE s = false.
Proof.
  rewrite formatDateTime_fields. intros H. apply Return_injective in H.
  rewrite <- H.
  repeat rewrite occurs_app.
  rewrite no_quote_iso_year, !no_quote_fixed_digits. reflexivity.
Qed.

Lemma map_outcome_returns {A B : Type} (f : A -> Outcome B) items :
  forall results,
    map_outcome f items = Return results ->
    Forall2 (fun x r => f x = Return r) items results.
Proof.
  induction items as [|x items IH]; cbn [map_outcome]; intros results H.
  - injection H as <-. constructor.
  - destruct (f x) as [r| |] eqn:Hx; cbn [bind] in H; try discriminate.
    destruct (map_outcome f items) as [rs| |]; cbn [bind] in H; try discriminate.
    injection H as <-. constructor; [exact Hx|now apply IH].
Qed.

Lemma bind_return_inv {A B : Type} (c : Outcome A) (k : A -> B) r :
  (x <- c ;; Return (k x)) = Return r -> exists a, c = Return a /\ r = k a.
Proof.
  destruct c as [a| |]; cbn [bind]; try discriminate.
  intros H. injection H as <-. now exists a.
Qed.

Lemma elements_closed (esc : SoqlValue -> Outcome string) items results :
  Forall (fun x => forall s, esc x = Return s -> scan_literals false s = Some false)
         items ->
  Forall2 (fun x r => esc x = Return r) items results ->
  Forall (fun p => scan_literals false p = Some false) results.
Proof.
  intros HF H2. induction H2 as [|x r items results Hx _ IH]; constructor.
  - inversion HF; subst. auto.
  - inversion HF; subst. auto.
Qed.

Lemma symbol_literals_closed (v : SoqlValue) :
  has_raw v = false ->
  forall s,
    SymbolVariant.escapeValue (SymbolVariant.inject v) true = Return s ->
    scan_literals false s = Some false.
Proof.
  induction v as [x|n|b|t| | |value|value|items IH] using SoqlValue_nested_ind;
    intros Hraw s; try discriminate.
  - intros H. injection H as <-. apply scan_literals_quoted_string.
  - cbn [SymbolVariant.inject]. destruct n as [sg|sg| |sg m e];
      try discriminate; intros H; injection H as <-; [reflexivity|].
    apply scan_literals_no_quote, number_units_hold_no_quote,
      all_units_Number_toString.
  - destruct b; intros H; injection H as <-; reflexivity.
  - destruct t as [t|]; [|discriminate].
    intros H. apply scan_literals_no_quote. now apply (no_quote_date_time t).
  - intros H. injection H as <-. reflexivity.
  - intros H. injection H as <-. reflexivity.
  - intros H. injection H as <-. apply scan_literals_quoted_like.
  - cbn [SymbolVariant.inject].
    change (SymbolVariant.escapeValue (VArray (map SymbolVariant.inject items)) true)
      with (escapeArray_throwing SymbolVariant.escapeValue
              (map SymbolVariant.inject items)).
    unfold escapeArray_throwing.
    destruct (List.length (map SymbolVariant.inject items) =? 0)%nat; [discriminate|].
    rewrite map_outcome_map. intros H.
    apply bind_return_inv in H as (results & Hres & ->).
    apply scan_literals_parenthesised.
    apply (elements_closed
             (fun x => SymbolVariant.escapeValue (SymbolVariant.inject x) true)
             items results); [|now apply map_outcome_returns].
    cbn [has_raw] in Hraw. apply existsb_false_Forall in Hraw.
    rewrite Forall_forall in IH, Hraw. apply Forall_forall.
    intros x Hx. apply IH; auto.
Qed.

Lemma field_literals_closed (v : SoqlValue) :
  has_raw v = false ->
  forall s,
    FieldVariant.escapeValue (FieldVariant.inject v) true = Return s ->
    scan_literals false s = Some false.
Proof.
  induction v as [x|n|b|t| | |value|value|items IH] using SoqlValue_nested_ind;
    intros Hraw s; try discriminate.
  - intros H. injection H as <-. apply scan_literals_quoted_string.
  - cbn [FieldVariant.inject]. destruct n as [sg|sg| |sg m e];
      try discriminate; intros H; injection H as <-; [reflexivity|].
    apply scan_literals_no_quote, number_units_hold_no_quote,
      all_units_Number_toString.
  - destruct b; intros H; injection H as <-; reflexivity.
  - destruct t as [t|]; [|discriminate].
    intros H. apply scan_literals_no_quote. now apply (no_quote_date_time t).
  - intros H. injection H as <-. reflexivity.
  - intros H. injection H as <-. reflexivity.
  - intros H. injection H as <-. apply scan_literals_quoted_like.
  - cbn [FieldVariant.inject].
    change (FieldVariant.escapeValue (VArray (map FieldVariant.inject items)) true)
      with (escapeArray_placeholder FieldVariant.escapeValue
              (map FieldVariant.inject items)).
    unfold escapeArray_placeholder.
    destruct (List.length (map FieldVariant.inject items) =? 0)%nat;
      [intros H; injection H as <-; reflexivity|].
    rewrite map_outcome_map. intros H.
    apply bind_return_inv in H as (results & Hres & ->).
    apply scan_literals_parenthesised.
    apply (elements_closed
             (fun x => FieldVariant.escapeValue (FieldVariant.inject x) true)
             items results); [|now apply map_outcome_returns].
    cbn [has_raw] in Hraw. apply existsb_false_Forall in Hraw.
    rewrite Forall_forall in IH, Hraw. apply Forall_forall.
    intros x Hx. apply IH; auto.
Qed.

(** X18. With default quoting, the text the escaper returns for a
    declared value that holds no raw wrapper never leaves a string
    literal open: read from outside a literal, with backslash pairs
    skipped inside literals, every quote in it is matched and the
    reading ends outside.  So after such a value in a template the next
    segment is read as query text; this holds at any array depth and in
    both versions. *)
Theorem escaped_value_closes_its_literals :
  forall (v : SoqlValue) (s : string),
    has_raw v = false ->
    (SymbolVariant.escapeValue (SymbolVariant.inject v) true = Return s ->
     scan_literals false s = Some false
     /\ forall rest, scan_literals false (s ++ rest) = scan_literals false rest)
    /\ (FieldVariant.escapeValue (FieldVariant.inject v) true = Return s ->
        scan_literals false s = Some false
        /\ forall rest, scan_literals false (s ++ rest) = scan_literals false rest).
Proof.
  intros v s Hraw. split; intros H.
  - pose proof (symbol_literals_closed v Hraw s H) as C.
    split; [exact C|]. intros rest. now apply scan_literals_app.
  - pose proof (field_literals_closed v Hraw s H) as C.
    split; [exact C|]. intros rest. now apply scan_literals_app.
Qed.

Lemma escaped_value_closes_its_literals_witness :
  has_raw (SvArray [SvString "a', 'b') OR Id != '"; SvLike "50%"; SvNull]) = false
  /\ scan_literals false
       ("('a" ++ esc QUOTE ++ ", " ++ esc QUOTE ++ "b" ++ esc QUOTE
        ++ ") OR Id != " ++ esc QUOTE ++ "', '50" ++ esc PERCENT ++ "', null)")
     = Some false.
Proof.
  split; [reflexivity|].
  apply (proj1 (escaped_value_closes_its_literals
                  (SvArray [SvString "a', 'b') OR Id != '"; SvLike "50%"; SvNull])
                  ("('a" ++ esc QUOTE ++ ", " ++ esc QUOTE ++ "b" ++ esc QUOTE
                   ++ ") OR Id != " ++ esc QUOTE ++ "', '50" ++ esc PERCENT
                   ++ "', null)")
                  eq_refl)).
  reflexivity.
Defined.

(** ** Markers and ordinary objects, version by version *)

Lemma PropKey_eqb_eq a b : PropKey_eqb a b = true -> a = b.
Proof.
  destruct a, b; simpl; try discriminate; intros H;
    apply String.eqb_eq in H; now subst.
Qed.

Lemma get_property_true_in key props :
  get_property key (VObject props) = VBoolean true ->
  In (key, VBoolean true) props.
Proof.
  unfold get_property.
  destruct (find (fun kv => PropKey_eqb (fst kv) key) props) as [[k x]|] eqn:F;
    [|discriminate].
  apply find_some in F as [Hin Hk]. cbn [fst snd] in *.
  apply PropKey_eqb_eq in Hk. subst k. now intros ->.
Qed.

Lemma get_property_true_has key props :
  get_property key (VObject props) = VBoolean true ->
  has_property key (VObject props) = true.
Proof.
  unfold get_property, has_property.
  destruct (find (fun kv => PropKey_eqb (fst kv) key) props) as [kv|] eqn:F;
    [|discriminate].
  intros _. apply existsb_exists. exists kv. now apply find_some in F.
Qed.

Lemma is_true_inv x : is_true x = true -> x = VBoolean true.
Proof. destruct x as [ | |[|]| | | | | | | | ]; simpl; congruence. Qed.

(** What any of the five guards accepts: an object that has the marker
    key bound to [true] among its properties. *)
Lemma guard_accepts_marked_objects key val :
  String.eqb (typeof val) "object" && negb (is_null val)
  && has_property key val && is_true (get_property key val) = true ->
  exists props, val = VObject props /\ In (key, VBoolean true) props.
Proof.
  intros H. apply andb_prop in H as [H Htrue]. apply andb_prop in H as [_ Hhas].
  destruct val; try discriminate Hhas.
  exists props. split; [reflexivity|].
  now apply get_property_true_in, is_true_inv.
Qed.

(** C8, as the code has it.  In both versions a value without the
    version's marker keys fails every guard, and an unmarked object
    ends in the fallback for unsupported types; a guard accepts only an
    object that has the marker key bound to [true]; a plain object with
    only a [value] field is no wrapper.  In the version with symbol
    markers no object whose keys are all strings is taken for a
    wrapper, whatever its fields.  In the version with field markers
    the marker is itself a string-keyed field: any object whose [__raw]
    is [true] and whose [value] is a string is taken for a raw value
    and its text is returned unescaped. *)
Theorem wrapper_markers_by_version :
  (forall val,
      carries_marker symbol_markers val = false ->
      SymbolVariant.isRawValue val = false
      /\ SymbolVariant.isLikeValue val = false
      /\ SymbolVariant.isDateValue val = false)
  /\ (forall val,
         carries_marker field_markers val = false ->
         FieldVariant.isRawValue val = false
         /\ FieldVariant.isLikeValue val = false)
  /\ (forall props wrapStrings,
         (carries_marker symbol_markers (VObject props) = false ->
          SymbolVariant.escapeValue (VObject props) wrapStrings
          = Throw (Error "Unsupported SOQL value type: object"))
         /\ (carries_marker field_markers (VObject props) = false ->
             FieldVariant.escapeValue (VObject props) wrapStrings
             = Throw (Error "Unsupported SOQL value type: object")))
  /\ (forall val,
         (SymbolVariant.isRawValue val = true ->
          exists props, val = VObject props
                        /\ In (SymbolVariant.RAW_SYMBOL, VBoolean true) props)
         /\ (SymbolVariant.isLikeValue val = true ->
             exists props, val = VObject props
                           /\ In (SymbolVariant.LIKE_SYMBOL, VBoolean true) props)
         /\ (SymbolVariant.isDateValue val = true ->
             exists props, val = VObject props
                           /\ In (SymbolVariant.DATE_SYMBOL, VBoolean true) props)
         /\ (FieldVariant.isRawValue val = true ->
             exists props, val = VObject props
                           /\ In (StringKey "__raw", VBoolean true) props)
         /\ (FieldVariant.isLikeValue val = true ->
             exists props, val = VObject props
                           /\ In (StringKey "__like", VBoolean true) props))
  /\ (forall props wrapStrings,
         forallb is_string_key (map fst props) = true ->
         SymbolVariant.isRawValue (VObject props) = false
         /\ SymbolVariant.isLikeValue (VObject props) = false
         /\ SymbolVariant.isDateValue (VObject props) = false
         /\ SymbolVariant.escapeValue (VObject props) wrapStrings
            = Throw (Error "Unsupported SOQL value type: object"))
  /\ (forall props s wrapStrings,
         get_property (StringKey "__raw") (VObject props) = VBoolean true ->
         get_property (StringKey "value") (VObject props) = VString s ->
         FieldVariant.isRawValue (VObject props) = true
         /\ FieldVariant.escapeValue (VObject props) wrapStrings = Return s)
  /\ (forall payload wrapStrings,
         SymbolVariant.escapeValue (VObject [ (StringKey "value", payload) ]) wrapStrings
         = Throw (Error "Unsupported SOQL value type: object")
         /\ FieldVariant.escapeValue (VObject [ (StringKey "value", payload) ]) wrapStrings
            = Throw (Error "Unsupported SOQL value type: object")).
Proof.
  destruct unmarked_value_is_no_wrapper as (Hsym & Hsym_obj & Hfld & Hfld_obj & Hkeys & Hplain).
  split; [exact Hsym|]. split; [exact Hfld|].
  split; [intros props w; split; [apply Hsym_obj|apply Hfld_obj]|].
  split.
  { intros val. repeat split; apply guard_accepts_marked_objects. }
  split.
  { intros props w Hk. pose proof (Hkeys props Hk) as Hm.
    destruct (Hsym _ Hm) as (Hr & Hl & Hd).
    repeat split; auto. }
  split; [|exact Hplain].
  intros props s w Hraw Hvalue.
  assert (G : FieldVariant.isRawValue (VObject props) = true).
  { unfold FieldVariant.isRawValue.
    rewrite (get_property_true_has _ _ Hraw), Hraw. reflexivity. }
  split; [exact G|].
  cbn [FieldVariant.escapeValue is_null is_undefined orb]. rewrite G.
  unfold value_as_string. now rewrite Hvalue.
Qed.

Lemma wrapper_markers_by_version_witness :
  carries_marker symbol_markers (VObject [ (StringKey "value", VString "x") ]) = false
  /\ SymbolVariant.isRawValue (VObject [ (StringKey "value", VString "x") ]) = false
  /\ FieldVariant.isRawValue (VObject [ (StringKey "value", VString "x") ]) = false
  /\ SymbolVariant.escapeValue
       (VObject [ (StringKey "__raw", VBoolean true); (StringKey "value", VString "x") ])
       true
     = Throw (Error "Unsupported SOQL value type: object")
  /\ FieldVariant.escapeValue
       (VObject [ (StringKey "id", VNumber (Number_of_Z 7));
                  (StringKey "__raw", VBoolean true);
                  (StringKey "value", VString "1 OR Id != null") ])
       true
     = Return "1 OR Id != null"
  /\ (exists props,
         SymbolVariant.raw "Name" = VObject props
         /\ In (SymbolVariant.RAW_SYMBOL, VBoolean true) props).
Proof.
  split; [reflexivity|].
  split.
  { apply (proj1 wrapper_markers_by_version
             (VObject [ (StringKey "value", VString "x") ])). reflexivity. }
  split.
  { apply (proj1 (proj2 wrapper_markers_by_version)
             (VObject [ (StringKey "value", VString "x") ])). reflexivity. }
  split.
  { apply (proj1 (proj2 (proj2 (proj2 (proj2 wrapper_markers_by_version))))
             [ (StringKey "__raw", VBoolean true); (StringKey "value", VString "x") ]
             true).
    reflexivity. }
  split.
  { apply (proj1 (proj2 (proj2 (proj2 (proj2 (proj2 wrapper_markers_by_version)))))
             [ (StringKey "id", VNumber (Number_of_Z 7));
               (StringKey "__raw", VBoolean true);
               (StringKey "value", VString "1 OR Id != null") ]
             "1 OR Id != null" true); reflexivity. }
  apply (proj1 (proj1 (proj2 (proj2 (proj2 wrapper_markers_by_version)))
                  (SymbolVariant.raw "Name"))).
  reflexivity.
Defined.

(** C8, as it is worded, fails on the version with field markers: an
    ordinary object, all of whose keys are strings, that has a field
    [__raw] set to [true] passes the raw guard, and its [value] is
    returned and spliced into the query unescaped; the version with
    symbol markers rejects the same object. *)
Lemma field_marker_collides_with_plain_object :
  forallb is_string_key
    (map fst [ (StringKey "__raw", VBoolean true);
               (StringKey "value", VString "1 OR Id != null") ]) = true
  /\ FieldVariant.isRawValue
       (VObject [ (StringKey "__raw", VBoolean true);
                  (StringKey "value", VString "1 OR Id != null") ]) = true
  /\ FieldVariant.escapeValue
       (VObject [ (StringKey "__raw", VBoolean true);
                  (StringKey "value", VString "1 OR Id != null") ]) true
     = Return "1 OR Id != null"
  /\ soql FieldVariant.escapeValue
          ["SELECT Id FROM Account WHERE Id = "; ""]
          [ VObject [ (StringKey "__raw", VBoolean true);
                      (StringKey "value", VString "1 OR Id != null") ] ]
     = Return "SELECT Id FROM Account WHERE Id = 1 OR Id != null"
  /\ SymbolVariant.escapeValue
       (VObject [ (StringKey "__raw", VBoolean true);
                  (StringKey "value", VString "1 OR Id != null") ]) true
     = Throw (Error "Unsupported SOQL value type: object").
Proof. repeat split. Qed.
